(** * near-prometheus-exporter: the RPC metrics collector

    A shallow embedding of [collector/rpc_metrics.go] and of the helper file
    that defines [GetStakeFromString] and [HashString], together with the
    properties of the scrape routine [Collect]. *)

From Stdlib Require Import ZArith List String Ascii Bool Lia.
From Stdlib Require Import Floats.SpecFloat.
Import ListNotations.

Local Open Scope string_scope.
Local Open Scope list_scope.
Local Open Scope Z_scope.

(** ** Go values *)

(** A Go [error] value, identified with the text its [Error()] method
    returns. *)
Inductive error : Type :=
| errorString (msg : string).

Definition Error (e : error) : string :=
  match e with errorString msg => msg end.

(** [float64]: IEEE 754 binary64, as the inductive specification of the
    Standard Library with 53 bits of precision and infinities at exponent
    1024.  Arithmetic rounds to nearest, ties to even. *)
Module Float64.

Definition float64 : Type := spec_float.

Definition prec : Z := 53.
Definition emax : Z := 1024.

(** The constant [0] and the zero value of a [float64] variable. *)
Definition zero : float64 := S754_zero false.

(** The conversion [float64(n)] of an integer. *)
Definition of_Z (n : Z) : float64 := binary_normalize prec emax n 0 false.

(** [x / y], [x == y] and [x > y]. *)
Definition div (x y : float64) : float64 := SFdiv prec emax x y.
Definition eqb (x y : float64) : bool := SFeqb x y.
Definition ltb (x y : float64) : bool := SFltb x y.
Definition gtb (x y : float64) : bool := SFltb y x.

(** A float that is a zero of either sign; these are the floats [x] with
    [x == 0]. *)
Definition is_zero (x : float64) : bool :=
  match x with S754_zero _ => true | _ => false end.

(** The integer a float denotes exactly, when it denotes one. *)
Definition to_Z (x : float64) : option Z :=
  match x with
  | S754_zero _ => Some 0
  | S754_finite s m e =>
      match e with
      | Z0 => Some (cond_Zopp s (Zpos m))
      | Zpos k => Some (cond_Zopp s (Zpos m * 2 ^ Zpos k))
      | Zneg k =>
          if (Zpos m mod 2 ^ Zpos k =? 0)
          then Some (cond_Zopp s (Zpos m / 2 ^ Zpos k))
          else None
      end
  | _ => None
  end.

End Float64.

Abbreviation float64 := Float64.float64.

(** A Go string is a sequence of bytes; [len] counts bytes and [s[i:j]]
    slices bytes. *)
Definition len (s : string) : nat := String.length s.
Definition slice (s : string) (i j : nat) : string := substring i (j - i) s.

(** [[]byte(s)] *)
Fixpoint bytes (s : string) : list Z :=
  match s with
  | EmptyString => []
  | String c r => Z.of_N (N_of_ascii c) :: bytes r
  end.

Definition byte_char (b : Z) : ascii := ascii_of_N (Z.to_N b).

(** [string(n)] for an integer [n]: the UTF-8 encoding of the code point [n],
    and of U+FFFD when [n] is not a valid code point. *)
Definition string_of_rune (n : Z) : string :=
  if (n <? 0) || (1114111 <? n) || ((55296 <=? n) && (n <=? 57343))
  then String (byte_char 239) (String (byte_char 191) (String (byte_char 189) ""))
  else if n <? 128 then String (byte_char n) ""
  else if n <? 2048 then
    String (byte_char (192 + Z.shiftr n 6))
      (String (byte_char (128 + Z.land n 63)) "")
  else if n <? 65536 then
    String (byte_char (224 + Z.shiftr n 12))
      (String (byte_char (128 + Z.land (Z.shiftr n 6) 63))
         (String (byte_char (128 + Z.land n 63)) ""))
  else
    String (byte_char (240 + Z.shiftr n 18))
      (String (byte_char (128 + Z.land (Z.shiftr n 12) 63))
         (String (byte_char (128 + Z.land (Z.shiftr n 6) 63))
            (String (byte_char (128 + Z.land n 63)) ""))).

(** ** Package [hash/fnv]: the 32-bit FNV-1a hasher

    The hasher object is its 32-bit state; [Write] folds the bytes in. *)
Module fnv.

Definition offset32 : Z := 2166136261.
Definition prime32 : Z := 16777619.

Definition sum32a : Type := Z.

Definition New32a : sum32a := offset32.

Definition Write (h : sum32a) (data : list Z) : sum32a :=
  fold_left (fun hash c => (Z.lxor hash c * prime32) mod 2 ^ 32) data h.

Definition Sum32 (h : sum32a) : Z := h.

End fnv.

(** [HashString]: a fresh hasher is fed the bytes of [s] and read out. *)
Definition HashString (s : string) : Z :=
  let h := fnv.New32a in
  let h := fnv.Write h (bytes s) in
  fnv.Sum32 h.

(** FNV-1a over 32 bits as the algorithm is usually stated: start from the
    offset basis; for each octet, xor it into the hash, then multiply by the
    FNV prime and keep the low 32 bits. *)
Fixpoint fnv1a_32_from (hash : Z) (octets : list Z) : Z :=
  match octets with
  | [] => hash
  | o :: rest => fnv1a_32_from (Z.land (Z.lxor hash o * 16777619) 4294967295) rest
  end.

Definition fnv1a_32 (octets : list Z) : Z := fnv1a_32_from 2166136261 octets.

(** ** Package [prometheus]: descriptors and metrics

    What the collector uses of the client library: a descriptor is the metric
    identity (name, help text, label names); a metric sent on the channel is
    either a constant sample or an invalid-metric marker carrying an error.
    [NewConstMetric] refuses a sample whose number of label values differs
    from the number of label names of its descriptor, and
    [MustNewConstMetric] panics on that refusal.  Label values are strings
    decoded from JSON and are taken to be valid UTF-8. *)
Module prometheus.

Record Desc : Type := {
  fqName : string;
  help : string;
  variableLabels : list string
}.

Definition NewDesc (fqName help : string) (variableLabels : list string)
    (constLabels : list (string * string)) : Desc :=
  {| fqName := fqName; help := help; variableLabels := variableLabels |}.

Inductive ValueType : Type := CounterValue | GaugeValue | UntypedValue.

Inductive Metric : Type :=
| constMetric (desc : Desc) (valType : ValueType) (value : float64)
    (labelValues : list string)
| invalidMetric (desc : Desc) (err : error).

Definition NewInvalidMetric (desc : Desc) (err : error) : Metric :=
  invalidMetric desc err.

Definition errInconsistentCardinality : error :=
  errorString "inconsistent label cardinality".

Definition NewConstMetric (desc : Desc) (valType : ValueType)
    (value : float64) (labelValues : list string) : Metric + error :=
  if (List.length labelValues =? List.length (variableLabels desc))%nat
  then inl (constMetric desc valType value labelValues)
  else inr errInconsistentCardinality.

(** The descriptor a metric was built for. *)
Definition Desc_of (m : Metric) : Desc :=
  match m with
  | constMetric d _ _ _ => d
  | invalidMetric d _ => d
  end.

(** Two descriptors name the same metric identity. *)
Definition same_desc (a b : Desc) : bool := String.eqb (fqName a) (fqName b).

End prometheus.

(** ** Package [nearapi]: the RPC client

    Modelled from the spec: the response types are declared in the client
    package, which is not part of the collector's source.  Their fields are
    the ones the spec lists for the three call shapes and [Collect] reads.
    Integer fields are unbounded integers here, the contract-call result is
    a sequence of integers, and the type of a kick-out reason is a
    parameter. *)
Module nearapi.

Module SyncInfo.
Record t : Type := { Syncing : bool; LatestBlockHeight : Z }.
End SyncInfo.

Module Version.
Record t : Type := { Version : string; Build : string }.
End Version.

Module Status.
Record t : Type := { SyncInfo : SyncInfo.t; Version : Version.t }.
End Status.

Module CurrentValidator.
Record t : Type := {
  AccountId : string;
  Stake : string;
  NumProducedBlocks : Z;
  NumExpectedBlocks : Z;
  NumProducedChunks : Z;
  NumExpectedChunks : Z
}.
End CurrentValidator.

Module NextValidator.
Record t : Type := { AccountId : string; Stake : string }.
End NextValidator.

Module CurrentProposal.
Record t : Type := { AccountId : string; Stake : string }.
End CurrentProposal.

Module PrevEpochKickOut.
Record t (Reason : Type) : Type := { AccountId : string; Reason_ : Reason }.
Arguments AccountId {Reason} _.
Arguments Reason_ {Reason} _.
End PrevEpochKickOut.

Module Validators.
Record t (Reason : Type) : Type := {
  EpochStartHeight : Z;
  CurrentValidators : list CurrentValidator.t;
  NextValidators : list NextValidator.t;
  CurrentProposals : list CurrentProposal.t;
  PrevEpochKickOut : list (PrevEpochKickOut.t Reason)
}.
Arguments EpochStartHeight {Reason} _.
Arguments CurrentValidators {Reason} _.
Arguments NextValidators {Reason} _.
Arguments CurrentProposals {Reason} _.
Arguments PrevEpochKickOut {Reason} _.
End Validators.

Module Result.
Record t : Type := { Result : list Z }.
End Result.

(** Modelled from the spec: one response type for the three queries, with
    the part each query fills. *)
Record Response (Reason : Type) : Type := {
  Status : Status.t;
  Validators : Validators.t Reason;
  Result : Result.t
}.
Arguments Status {Reason} _.
Arguments Validators {Reason} _.
Arguments Result {Reason} _.

(** The [params] argument of [Get]: [nil], a string, or a map with string
    keys and string values. *)
Inductive Params : Type :=
| PNil
| PString (s : string)
| PMap (kvs : list (string * string)).

(** A request as [Get] receives it. *)
Definition Request : Type := (string * Params)%type.

(** Modelled from the spec: the client, as the node behind it answers a
    request, with a response or with an error. *)
Record Client (Reason : Type) : Type := {
  answer : string -> Params -> Response Reason + error
}.
Arguments answer {Reason} _ _ _.

End nearapi.

(** [DelegatorAccount], the element type of the decoded contract-call
    result. *)
Record DelegatorAccount : Type := {
  AccountId : string;
  UnstakedBalance : string;
  StakedBalance : string;
  CanWithdraw : bool
}.

(** ** The library functions the collector calls

    [strconv.ParseFloat], [encoding/json.Unmarshal] into a
    [*[]DelegatorAccount], and [fmt.Sprintf("%v", _)] on a kick-out reason
    are taken as parameters.  [Unmarshal data v] returns the slice the
    destination holds afterwards, and the error. *)
Class GoLib (Reason : Type) : Type := {
  ParseFloat : string -> Z -> float64 * option error;
  Unmarshal : string -> list DelegatorAccount ->
              list DelegatorAccount * option error;
  Sprintf_v : Reason -> string
}.

(** [math.Pow(x, n)] for a natural exponent, by repeated multiplication; the
    collector only calls it as [math.Pow(10, 5)], which is exactly [1e5]. *)
Module math.

Fixpoint Pow (x : float64) (n : nat) : float64 :=
  match n with
  | O => Float64.of_Z 1
  | S k => SFmul Float64.prec Float64.emax x (Pow x k)
  end.

End math.

(** ** What a scrape does to the world

    The observable effects of [Collect]: the metrics sent on the channel, the
    requests handed to the RPC client, and the lines printed on standard
    output, each in order. *)
Record World : Type := {
  ch : list prometheus.Metric;
  rpc : list nearapi.Request;
  stdout : list string
}.

Definition empty_world : World := {| ch := []; rpc := []; stdout := [] |}.

(** A computation either completes with a value or panics. *)
Inductive outcome (A : Type) : Type :=
| Done (a : A)
| Panic (e : error).
Arguments Done {A} a.
Arguments Panic {A} e.

Definition M (A : Type) : Type := World -> outcome A * World.

Definition ret {A : Type} (a : A) : M A := fun w => (Done a, w).

Definition bind {A B : Type} (c : M A) (k : A -> M B) : M B :=
  fun w =>
    match c w with
    | (Done a, w') => k a w'
    | (Panic e, w') => (Panic e, w')
    end.

Definition panic {A : Type} (e : error) : M A := fun w => (Panic e, w).

Notation "x <- c ;; k" := (bind c (fun x => k))
  (at level 61, c at next level, right associativity).
Notation "c ;; k" := (bind c (fun _ => k))
  (at level 61, right associativity).

(** [ch <- m] *)
Definition send (m : prometheus.Metric) : M unit :=
  fun w => (Done tt, {| ch := ch w ++ [m]; rpc := rpc w; stdout := stdout w |}).

(** [fmt.Println(err)] *)
Definition Println (line : string) : M unit :=
  fun w => (Done tt, {| ch := ch w; rpc := rpc w; stdout := stdout w ++ [line] |}).

(** [client.Get(method, params)] *)
Definition Get {Reason : Type} (client : nearapi.Client Reason)
    (method : string) (params : nearapi.Params)
    : M (nearapi.Response Reason + error) :=
  fun w =>
    (Done (nearapi.answer client method params),
     {| ch := ch w; rpc := rpc w ++ [(method, params)]; stdout := stdout w |}).

Definition MustNewConstMetric (desc : prometheus.Desc)
    (valType : prometheus.ValueType) (value : float64)
    (labelValues : list string) : M prometheus.Metric :=
  match prometheus.NewConstMetric desc valType value labelValues with
  | inl m => ret m
  | inr e => panic e
  end.

(** [for _, v := range l { body }] *)
Fixpoint range {A : Type} (l : list A) (body : A -> M unit) : M unit :=
  match l with
  | [] => ret tt
  | v :: rest => body v ;; range rest body
  end.

(** The same loop with a local variable that the body updates. *)
Fixpoint range_with {A S : Type} (l : list A) (s : S) (body : S -> A -> M S)
    : M S :=
  match l with
  | [] => ret s
  | v :: rest => s' <- body s v ;; range_with rest s' body
  end.


(** ** Package [collector] *)

Import prometheus.

Section Collector.

Context {Reason : Type} {lib : GoLib Reason}.

Record NodeRpcMetrics : Type := {
  accountId : string;
  client : nearapi.Client Reason;
  epochBlockProducedDesc : Desc;
  epochBlockExpectedDesc : Desc;
  epochChunksProducedDesc : Desc;
  epochChunksExpectedDesc : Desc;
  seatPriceDesc : Desc;
  delegatorStakeDesc : Desc;
  epochStartHeightDesc : Desc;
  blockNumberDesc : Desc;
  syncingDesc : Desc;
  versionBuildDesc : Desc;
  currentValidatorStakeDesc : Desc;
  nextValidatorStakeDesc : Desc;
  prevEpochKickoutDesc : Desc;
  currentProposalsDesc : Desc
}.

Definition NewNodeRpcMetrics (client : nearapi.Client Reason)
    (accountId : string) : NodeRpcMetrics :=
  {| accountId := accountId;
     client := client;
     epochBlockProducedDesc := NewDesc
       "near_account_epoch_block_produced_number"
       "The number of block produced in epoch of a given account id"
       [] [];
     epochBlockExpectedDesc := NewDesc
       "near_account_epoch_block_expected_number"
       "The number of block expected in epoch of a given account id"
       [] [];
     epochChunksProducedDesc := NewDesc
       "near_account_epoch_chunks_produced_number"
       "The number of chunks produced in epoch of a given account id"
       [] [];
     epochChunksExpectedDesc := NewDesc
       "near_account_epoch_chunks_expected_number"
       "The number of chunks expected in epoch of a given account id"
       [] [];
     delegatorStakeDesc := NewDesc
       "near_account_delegator_stake"
       "Delegators stake of a given account id"
       ["delegator_account_id"] [];
     currentValidatorStakeDesc := NewDesc
       "near_account_current_validator_stake"
       "Current amount of validator stake of a given account id"
       [] [];
     nextValidatorStakeDesc := NewDesc
       "near_account_next_validator_stake"
       "The next validator stake of a given account id"
       [] [];
     currentProposalsDesc := NewDesc
       "near_account_current_proposals_stake"
       "Current proposals of a given account id"
       [] [];
     prevEpochKickoutDesc := NewDesc
       "near_account_prev_epoch_kickout"
       "Near previous epoch kicked out of a given account id"
       ["reason"] [];
     epochStartHeightDesc := NewDesc
       "near_epoch_start_height"
       "Near epoch start height"
       [] [];
     blockNumberDesc := NewDesc
       "near_block_number"
       "The number of most recent block"
       [] [];
     syncingDesc := NewDesc
       "near_sync_state"
       "Sync state"
       [] [];
     versionBuildDesc := NewDesc
       "near_version_build"
       "The Near node version build"
       ["version"; "build"] [];
     seatPriceDesc := NewDesc
       "near_seat_price"
       "Validator seat price"
       [] [] |}.

(** [Describe] sends every descriptor; the list is what it sends, in order. *)
Definition Describe (collector : NodeRpcMetrics) : list Desc :=
  [ epochBlockProducedDesc collector;
    epochBlockExpectedDesc collector;
    epochChunksProducedDesc collector;
    epochChunksExpectedDesc collector;
    seatPriceDesc collector;
    delegatorStakeDesc collector;
    epochStartHeightDesc collector;
    blockNumberDesc collector;
    syncingDesc collector;
    versionBuildDesc collector;
    currentValidatorStakeDesc collector;
    nextValidatorStakeDesc collector;
    currentProposalsDesc collector;
    prevEpochKickoutDesc collector ].

Definition GetStakeFromString (s : string) : M float64 :=
  if (len s <=? 19)%nat then ret Float64.zero
  else
    let l := (len s - 19)%nat in
    let (v, err) := ParseFloat (slice s 0 l) 64 in
    match err with
    | Some e => Println (Error e) ;; ret Float64.zero
    | None => ret (Float64.div v (math.Pow (Float64.of_Z 10) 5))
    end.

(** The parameters of the contract call that lists the delegators. *)
Definition get_accounts_params (collector : NodeRpcMetrics) : nearapi.Params :=
  nearapi.PMap
    [ ("request_type", "call_function");
      ("finality", "final");
      ("account_id", accountId collector);
      ("method_name", "get_accounts");
      ("args_base64", "eyJmcm9tX2luZGV4IjogMCwgImxpbWl0IjogMTAwfQ==") ].

(** The body of the loop over the current validators; [seatPrice] is the
    local variable the loop updates. *)
Definition current_validator_body (collector : NodeRpcMetrics)
    (seatPrice : float64) (v : nearapi.CurrentValidator.t) : M float64 :=
  stake <- GetStakeFromString (nearapi.CurrentValidator.Stake v) ;;
  let seatPrice :=
    if Float64.eqb seatPrice Float64.zero then stake else seatPrice in
  let seatPrice :=
    if Float64.gtb seatPrice stake then stake else seatPrice in
  (if String.eqb (nearapi.CurrentValidator.AccountId v) (accountId collector)
   then
     m <- MustNewConstMetric (currentValidatorStakeDesc collector) GaugeValue
            stake [] ;;
     send m ;;
     m <- MustNewConstMetric (epochBlockProducedDesc collector) GaugeValue
            (Float64.of_Z (nearapi.CurrentValidator.NumProducedBlocks v)) [] ;;
     send m ;;
     m <- MustNewConstMetric (epochBlockExpectedDesc collector) GaugeValue
            (Float64.of_Z (nearapi.CurrentValidator.NumExpectedBlocks v)) [] ;;
     send m ;;
     m <- MustNewConstMetric (epochChunksProducedDesc collector) GaugeValue
            (Float64.of_Z (nearapi.CurrentValidator.NumProducedChunks v)) [] ;;
     send m ;;
     m <- MustNewConstMetric (epochChunksExpectedDesc collector) GaugeValue
            (Float64.of_Z (nearapi.CurrentValidator.NumExpectedChunks v)) [] ;;
     send m
   else ret tt) ;;
  ret seatPrice.

Definition next_validator_body (collector : NodeRpcMetrics)
    (v : nearapi.NextValidator.t) : M unit :=
  if String.eqb (nearapi.NextValidator.AccountId v) (accountId collector)
  then
    stake <- GetStakeFromString (nearapi.NextValidator.Stake v) ;;
    m <- MustNewConstMetric (nextValidatorStakeDesc collector) GaugeValue
           stake [] ;;
    send m
  else ret tt.

Definition current_proposal_body (collector : NodeRpcMetrics)
    (v : nearapi.CurrentProposal.t) : M unit :=
  if String.eqb (nearapi.CurrentProposal.AccountId v) (accountId collector)
  then
    stake <- GetStakeFromString (nearapi.CurrentProposal.Stake v) ;;
    m <- MustNewConstMetric (currentProposalsDesc collector) GaugeValue
           stake [] ;;
    send m
  else ret tt.

Definition kickout_body (collector : NodeRpcMetrics)
    (v : nearapi.PrevEpochKickOut.t Reason) : M unit :=
  if String.eqb (nearapi.PrevEpochKickOut.AccountId v) (accountId collector)
  then
    m <- MustNewConstMetric (prevEpochKickoutDesc collector) GaugeValue
           Float64.zero [Sprintf_v (nearapi.PrevEpochKickOut.Reason_ v)] ;;
    send m
  else ret tt.

Definition delegator_body (collector : NodeRpcMetrics)
    (delegator : DelegatorAccount) : M unit :=
  stake <- GetStakeFromString (StakedBalance delegator) ;;
  m <- MustNewConstMetric (delegatorStakeDesc collector) GaugeValue
         stake [AccountId delegator] ;;
  send m.

(** [resultString]: the concatenation of [string(n)] over the result. *)
Definition resultString (ns : list Z) : string :=
  fold_left (fun acc n => (acc ++ string_of_rune n)%string) ns "".

(** Step 3 of [Collect]: the contract-call query and the delegator
    samples. *)
Definition collect_delegators (collector : NodeRpcMetrics) : M unit :=
  d <- Get (client collector) "query" (get_accounts_params collector) ;;
  match d with
  | inr err =>
      send (NewInvalidMetric (delegatorStakeDesc collector) err)
  | inl d =>
      let resultString :=
        resultString (nearapi.Result.Result (nearapi.Result d)) in
      let res := [] in
      let (res, _) := Unmarshal resultString res in
      range res (delegator_body collector)
  end.

(** Step 2 of [Collect], after the validator-set query has succeeded. *)
Definition collect_validators (collector : NodeRpcMetrics)
    (r : nearapi.Response Reason) : M unit :=
  let vs := nearapi.Validators r in
  m <- MustNewConstMetric (epochStartHeightDesc collector) GaugeValue
         (Float64.of_Z (nearapi.Validators.EpochStartHeight vs)) [] ;;
  send m ;;
  seatPrice <- range_with (nearapi.Validators.CurrentValidators vs)
                 Float64.zero (current_validator_body collector) ;;
  m <- MustNewConstMetric (seatPriceDesc collector) GaugeValue seatPrice [] ;;
  send m ;;
  range (nearapi.Validators.NextValidators vs) (next_validator_body collector) ;;
  range (nearapi.Validators.CurrentProposals vs)
    (current_proposal_body collector) ;;
  range (nearapi.Validators.PrevEpochKickOut vs) (kickout_body collector).

(** The invalid markers sent when the validator-set query fails. *)
Definition validators_failed (collector : NodeRpcMetrics) (err : error)
    : M unit :=
  send (NewInvalidMetric (epochBlockProducedDesc collector) err) ;;
  send (NewInvalidMetric (epochBlockExpectedDesc collector) err) ;;
  send (NewInvalidMetric (epochChunksProducedDesc collector) err) ;;
  send (NewInvalidMetric (epochChunksExpectedDesc collector) err) ;;
  send (NewInvalidMetric (seatPriceDesc collector) err) ;;
  send (NewInvalidMetric (epochStartHeightDesc collector) err) ;;
  send (NewInvalidMetric (blockNumberDesc collector) err) ;;
  send (NewInvalidMetric (syncingDesc collector) err) ;;
  send (NewInvalidMetric (versionBuildDesc collector) err) ;;
  send (NewInvalidMetric (currentValidatorStakeDesc collector) err) ;;
  send (NewInvalidMetric (nextValidatorStakeDesc collector) err) ;;
  send (NewInvalidMetric (currentProposalsDesc collector) err) ;;
  send (NewInvalidMetric (prevEpochKickoutDesc collector) err).

(** Step 1 of [Collect], after the status query has succeeded. *)
Definition collect_status (collector : NodeRpcMetrics)
    (sr : nearapi.Response Reason) : M unit :=
  let st := nearapi.Status sr in
  let syn := nearapi.SyncInfo.Syncing (nearapi.Status.SyncInfo st) in
  let isSyncing := if syn then 1 else 0 in
  m <- MustNewConstMetric (syncingDesc collector) GaugeValue
         (Float64.of_Z isSyncing) [] ;;
  send m ;;
  let blockHeight :=
    nearapi.SyncInfo.LatestBlockHeight (nearapi.Status.SyncInfo st) in
  m <- MustNewConstMetric (blockNumberDesc collector) GaugeValue
         (Float64.of_Z blockHeight) [] ;;
  send m ;;
  let versionBuildInt :=
    HashString (nearapi.Version.Build (nearapi.Status.Version st)) in
  m <- MustNewConstMetric (versionBuildDesc collector) GaugeValue
         (Float64.of_Z versionBuildInt)
         [ nearapi.Version.Version (nearapi.Status.Version st);
           nearapi.Version.Build (nearapi.Status.Version st) ] ;;
  send m.

Definition Collect (collector : NodeRpcMetrics) : M unit :=
  sr <- Get (client collector) "status" nearapi.PNil ;;
  match sr with
  | inr err =>
      send (NewInvalidMetric (versionBuildDesc collector) err)
  | inl sr =>
      collect_status collector sr ;;
      r <- Get (client collector) "validators" (nearapi.PString "latest") ;;
      match r with
      | inr err => validators_failed collector err
      | inl r =>
          collect_validators collector r ;;
          collect_delegators collector
      end
  end.

End Collector.

Arguments NodeRpcMetrics : clear implicits.


(** ** Running the collector: concrete library functions

    To evaluate [Collect] on concrete responses the library parameters are
    given executable models.  They cover the inputs the examples use: decimal
    digit strings for [ParseFloat], ASCII payloads without [\u] escapes for
    [Unmarshal], and kick-out reasons that are strings. *)

Definition dquote : ascii := byte_char 34.

(** [strconv.Quote] on text that needs no escaping. *)
Definition Quote (s : string) : string :=
  (String dquote s ++ String dquote "")%string.

Module strconv.

Definition is_digit (c : ascii) : bool :=
  let n := Z.of_N (N_of_ascii c) in (48 <=? n) && (n <=? 57).

Definition digit_value (c : ascii) : Z := Z.of_N (N_of_ascii c) - 48.

(** The number a string of decimal digits denotes, read after [acc]. *)
Fixpoint digits_value (acc : Z) (s : string) : option Z :=
  match s with
  | EmptyString => Some acc
  | String c r =>
      if is_digit c then digits_value (10 * acc + digit_value c) r else None
  end.

Definition NumError (num reason : string) : error :=
  errorString
    ("strconv.ParseFloat: parsing " ++ Quote num ++ ": " ++ reason)%string.

(** [strconv.ParseFloat(s, 64)] on a non-empty string of decimal digits: the
    nearest [float64], ties to even, and a range error with an infinity when
    the number is too large.  Every other string is answered with the syntax
    error; the examples apply it only to digit strings and to strings that
    are no floating-point literal. *)
Definition ParseFloat (s : string) (bitSize : Z) : float64 * option error :=
  match s with
  | EmptyString => (Float64.zero, Some (NumError s "invalid syntax"))
  | _ =>
      match digits_value 0 s with
      | None => (Float64.zero, Some (NumError s "invalid syntax"))
      | Some n =>
          match Float64.of_Z n with
          | S754_infinity sg =>
              (S754_infinity sg, Some (NumError s "value out of range"))
          | f => (f, None)
          end
      end
  end.

End strconv.

Module json.

#[local] Set Warnings "-register-all".

(** A JSON text. *)
Inductive value : Type :=
| Null
| Bool (b : bool)
| Number (literal : string)
| Str (s : string)
| Array (elements : list value)
| Object (members : list (string * value)).

Definition is_space (c : ascii) : bool :=
  let n := Z.of_N (N_of_ascii c) in
  (n =? 32) || (n =? 9) || (n =? 10) || (n =? 13).

Fixpoint skip_space (s : string) : string :=
  match s with
  | String c r => if is_space c then skip_space r else s
  | EmptyString => s
  end.

(** The character a one-letter escape stands for. *)
Definition unescape (c : ascii) : option ascii :=
  let n := Z.of_N (N_of_ascii c) in
  if n =? 34 then Some c              (* the double quote *)
  else if n =? 92 then Some c         (* the backslash *)
  else if n =? 47 then Some c         (* the slash *)
  else if n =? 98 then Some (byte_char 8)
  else if n =? 102 then Some (byte_char 12)
  else if n =? 110 then Some (byte_char 10)
  else if n =? 114 then Some (byte_char 13)
  else if n =? 116 then Some (byte_char 9)
  else None.

(** The rest of a string literal after its opening quote: the text, and what
    follows the closing quote. *)
Fixpoint scan_string (s : string) (acc : string) : option (string * string) :=
  match s with
  | EmptyString => None
  | String c r =>
      let n := Z.of_N (N_of_ascii c) in
      if n =? 34 then Some (acc, r)
      else if n =? 92 then
        match r with
        | String e r' =>
            match unescape e with
            | Some x => scan_string r' (acc ++ String x "")%string
            | None => None
            end
        | EmptyString => None
        end
      else if n <? 32 then None
      else scan_string r (acc ++ String c "")%string
  end.

Fixpoint take_digits (s : string) : string * string :=
  match s with
  | String c r =>
      if strconv.is_digit c
      then let (ds, rest) := take_digits r in (String c ds, rest)
      else (EmptyString, s)
  | EmptyString => (EmptyString, s)
  end.

Definition is_char (n : Z) (c : ascii) : bool := Z.of_N (N_of_ascii c) =? n.

(** A number literal: optional minus, integer part without a superfluous
    leading zero, optional fraction, optional exponent. *)
Definition scan_number (s : string) : option (string * string) :=
  let (sign, s1) :=
    match s with
    | String c r => if is_char 45 c then (String c "", r) else ("", s)
    | EmptyString => ("", s)
    end in
  let (int, s2) := take_digits s1 in
  match int with
  | EmptyString => None
  | String d ds =>
      if is_char 48 d && negb (String.eqb ds "") then None
      else
        let frac :=
          match s2 with
          | String c r =>
              if is_char 46 c then
                let (fs, s3) := take_digits r in
                match fs with
                | EmptyString => None
                | _ => Some (String c fs, s3)
                end
              else Some ("", s2)
          | EmptyString => Some ("", s2)
          end in
        match frac with
        | None => None
        | Some (fr, s3) =>
            let exp :=
              match s3 with
              | String c r =>
                  if is_char 101 c || is_char 69 c then
                    let (sg, r1) :=
                      match r with
                      | String c1 r1 =>
                          if is_char 43 c1 || is_char 45 c1
                          then (String c1 "", r1) else ("", r)
                      | EmptyString => ("", r)
                      end in
                    let (es, s4) := take_digits r1 in
                    match es with
                    | EmptyString => None
                    | _ => Some (String c sg ++ es, s4)
                    end
                  else Some ("", s3)
              | EmptyString => Some ("", s3)
              end in
            match exp with
            | None => None
            | Some (ex, s4) => Some (sign ++ int ++ fr ++ ex, s4)
            end
        end
  end%string.

(** [s] starts with [p]; what follows. *)
Fixpoint strip_prefix (p s : string) : option string :=
  match p, s with
  | EmptyString, _ => Some s
  | String a p', String b s' =>
      if Ascii.eqb a b then strip_prefix p' s' else None
  | _, EmptyString => None
  end.

(** One value at the head of [s], after white space; [fuel] bounds the
    nesting and the number of elements. *)
Fixpoint parse_value (fuel : nat) (s : string) {struct fuel}
    : option (value * string) :=
  match fuel with
  | O => None
  | S fuel =>
      match skip_space s with
      | EmptyString => None
      | String c r =>
          if is_char 123 c then
            match skip_space r with
            | String c' r' =>
                if is_char 125 c' then Some (Object [], r')
                else
                  match parse_members fuel (String c' r') with
                  | Some (ms, rest) => Some (Object ms, rest)
                  | None => None
                  end
            | EmptyString => None
            end
          else if is_char 91 c then
            match skip_space r with
            | String c' r' =>
                if is_char 93 c' then Some (Array [], r')
                else
                  match parse_elements fuel (String c' r') with
                  | Some (es, rest) => Some (Array es, rest)
                  | None => None
                  end
            | EmptyString => None
            end
          else if is_char 34 c then
            match scan_string r "" with
            | Some (str, rest) => Some (Str str, rest)
            | None => None
            end
          else if is_char 45 c || strconv.is_digit c then
            match scan_number (String c r) with
            | Some (lit, rest) => Some (Number lit, rest)
            | None => None
            end
          else
            match strip_prefix "true" (String c r) with
            | Some rest => Some (Bool true, rest)
            | None =>
                match strip_prefix "false" (String c r) with
                | Some rest => Some (Bool false, rest)
                | None =>
                    match strip_prefix "null" (String c r) with
                    | Some rest => Some (Null, rest)
                    | None => None
                    end
                end
            end
      end
  end

(** The elements of an array up to and including its closing bracket. *)
with parse_elements (fuel : nat) (s : string) {struct fuel}
    : option (list value * string) :=
  match fuel with
  | O => None
  | S fuel =>
      match parse_value fuel s with
      | None => None
      | Some (v, rest) =>
          match skip_space rest with
          | String c r =>
              if is_char 93 c then Some ([v], r)
              else if is_char 44 c then
                match parse_elements fuel r with
                | Some (vs, rest') => Some (v :: vs, rest')
                | None => None
                end
              else None
          | EmptyString => None
          end
      end
  end

(** The members of an object up to and including its closing brace. *)
with parse_members (fuel : nat) (s : string) {struct fuel}
    : option (list (string * value) * string) :=
  match fuel with
  | O => None
  | S fuel =>
      match skip_space s with
      | String q r =>
          if is_char 34 q then
            match scan_string r "" with
            | None => None
            | Some (key, rest) =>
                match skip_space rest with
                | String c r1 =>
                    if is_char 58 c then
                      match parse_value fuel r1 with
                      | None => None
                      | Some (v, rest1) =>
                          match skip_space rest1 with
                          | String c2 r2 =>
                              if is_char 125 c2 then Some ([(key, v)], r2)
                              else if is_char 44 c2 then
                                match parse_members fuel r2 with
                                | Some (ms, rest2) =>
                                    Some ((key, v) :: ms, rest2)
                                | None => None
                                end
                              else None
                          | EmptyString => None
                          end
                      end
                    else None
                | EmptyString => None
                end
            end
          else None
      | EmptyString => None
      end
  end.

(** A whole JSON text: one value with white space around it. *)
Definition parse (data : string) : option value :=
  match parse_value (2 * String.length data + 2) data with
  | Some (v, rest) =>
      match skip_space rest with
      | EmptyString => Some v
      | _ => None
      end
  | None => None
  end.

(** *** Decoding into a [[]DelegatorAccount]

    As [encoding/json] documents it: a syntax error is reported before
    anything is stored; a JSON value that does not fit its destination is
    skipped, decoding goes on, and the first such mismatch is the error
    returned at the end; [null] stores nothing; object keys match the field
    tags, exactly or up to letter case, and unknown keys are ignored. *)

Definition lower (c : ascii) : ascii :=
  let n := Z.of_N (N_of_ascii c) in
  if (65 <=? n) && (n <=? 90) then byte_char (n + 32) else c.

Fixpoint EqualFold (a b : string) : bool :=
  match a, b with
  | EmptyString, EmptyString => true
  | String x a', String y b' => Ascii.eqb (lower x) (lower y) && EqualFold a' b'
  | _, _ => false
  end.

Definition kind (v : value) : string :=
  match v with
  | Null => "null"
  | Bool _ => "bool"
  | Number _ => "number"
  | Str _ => "string"
  | Array _ => "array"
  | Object _ => "object"
  end.

Definition UnmarshalTypeError (v : value) (target : string) : error :=
  errorString
    ("json: cannot unmarshal " ++ kind v ++
     " into Go value of type " ++ target)%string.

Definition SyntaxError : error := errorString "json: invalid syntax".

(** The first error is the one kept. *)
Definition saveError (saved : option error) (e : error) : option error :=
  match saved with
  | Some _ => saved
  | None => Some e
  end.

Definition store_string (v : value) (old : string) (saved : option error)
    : string * option error :=
  match v with
  | Str s => (s, saved)
  | Null => (old, saved)
  | _ => (old, saveError saved (UnmarshalTypeError v "string"))
  end.

Definition store_bool (v : value) (old : bool) (saved : option error)
    : bool * option error :=
  match v with
  | Bool b => (b, saved)
  | Null => (old, saved)
  | _ => (old, saveError saved (UnmarshalTypeError v "bool"))
  end.

(** One member of an object stored into the record. *)
Definition store_member (acc : DelegatorAccount * option error)
    (member : string * value) : DelegatorAccount * option error :=
  let (a, saved) := acc in
  let (key, v) := member in
  if EqualFold key "account_id" then
    let (x, saved) := store_string v (AccountId a) saved in
    ({| AccountId := x; UnstakedBalance := UnstakedBalance a;
        StakedBalance := StakedBalance a; CanWithdraw := CanWithdraw a |},
     saved)
  else if EqualFold key "unstaked_balance" then
    let (x, saved) := store_string v (UnstakedBalance a) saved in
    ({| AccountId := AccountId a; UnstakedBalance := x;
        StakedBalance := StakedBalance a; CanWithdraw := CanWithdraw a |},
     saved)
  else if EqualFold key "staked_balance" then
    let (x, saved) := store_string v (StakedBalance a) saved in
    ({| AccountId := AccountId a; UnstakedBalance := UnstakedBalance a;
        StakedBalance := x; CanWithdraw := CanWithdraw a |},
     saved)
  else if EqualFold key "can_withdraw" then
    let (x, saved) := store_bool v (CanWithdraw a) saved in
    ({| AccountId := AccountId a; UnstakedBalance := UnstakedBalance a;
        StakedBalance := StakedBalance a; CanWithdraw := x |},
     saved)
  else (a, saved).

Definition zero_account : DelegatorAccount :=
  {| AccountId := ""; UnstakedBalance := ""; StakedBalance := "";
     CanWithdraw := false |}.

(** One array element stored into a fresh record. *)
Definition store_account (v : value) (saved : option error)
    : DelegatorAccount * option error :=
  match v with
  | Object members => fold_left store_member members (zero_account, saved)
  | Null => (zero_account, saved)
  | _ =>
      (zero_account,
       saveError saved (UnmarshalTypeError v "collector.DelegatorAccount"))
  end.

Fixpoint store_accounts (vs : list value) (saved : option error)
    : list DelegatorAccount * option error :=
  match vs with
  | [] => ([], saved)
  | v :: rest =>
      let (a, saved) := store_account v saved in
      let (accounts, saved) := store_accounts rest saved in
      (a :: accounts, saved)
  end.

(** [json.Unmarshal(data, &res)] for a [res] that holds [dst]. *)
Definition Unmarshal (data : string) (dst : list DelegatorAccount)
    : list DelegatorAccount * option error :=
  match parse data with
  | None => (dst, Some SyntaxError)
  | Some (Array elements) => store_accounts elements None
  | Some Null => ([], None)
  | Some v =>
      (dst, Some (UnmarshalTypeError v "[]collector.DelegatorAccount"))
  end.

End json.

(** The library instance of the examples. *)
#[export] Instance golib : GoLib string := {|
  ParseFloat := strconv.ParseFloat;
  Unmarshal := json.Unmarshal;
  Sprintf_v := fun reason => reason
|}.


(** ** Reading a scrape

    A scrape starts on a fresh channel; what it sent, what it asked the node
    and how it ended are read off the final world. *)

Section Scrape.

Context {Reason : Type} {lib : GoLib Reason}.

Definition scrape (collector : NodeRpcMetrics Reason) : outcome unit * World :=
  Collect collector empty_world.

Definition emitted (collector : NodeRpcMetrics Reason) : list Metric :=
  ch (snd (scrape collector)).

Definition requested (collector : NodeRpcMetrics Reason) : list nearapi.Request :=
  rpc (snd (scrape collector)).

(** [Collect] returned normally: no panic left it. *)
Definition completes (collector : NodeRpcMetrics Reason) : Prop :=
  fst (scrape collector) = Done tt.

(** The value [GetStakeFromString] returns: the normalized stake. *)
Definition stake_value (s : string) : float64 :=
  match fst (GetStakeFromString s empty_world) with
  | Done v => v
  | Panic _ => Float64.zero
  end.

(** The lines [GetStakeFromString] prints. *)
Definition stake_log (s : string) : list string :=
  stdout (snd (GetStakeFromString s empty_world)).

Definition is_invalid (m : Metric) : bool :=
  match m with
  | invalidMetric _ _ => true
  | constMetric _ _ _ _ => false
  end.

(** Everything sent for a descriptor, sample or marker. *)
Definition sent_for (d : Desc) (ms : list Metric) : list Metric :=
  filter (fun m => same_desc (Desc_of m) d) ms.

(** The samples sent for a descriptor, and their values. *)
Definition samples_of (d : Desc) (ms : list Metric) : list Metric :=
  filter (fun m => negb (is_invalid m)) (sent_for d ms).

Definition sample_values (ms : list Metric) : list float64 :=
  flat_map
    (fun m =>
       match m with
       | constMetric _ _ v _ => [v]
       | invalidMetric _ _ => []
       end) ms.

Definition values_of (d : Desc) (ms : list Metric) : list float64 :=
  sample_values (samples_of d ms).

Definition gauge (d : Desc) (v : float64) (labelValues : list string)
    : Metric :=
  constMetric d GaugeValue v labelValues.

(** *** What each step sends, as lists *)

Definition status_metrics (collector : NodeRpcMetrics Reason)
    (sr : nearapi.Response Reason) : list Metric :=
  let st := nearapi.Status sr in
  [ gauge (syncingDesc collector)
      (Float64.of_Z
         (if nearapi.SyncInfo.Syncing (nearapi.Status.SyncInfo st)
          then 1 else 0)) [];
    gauge (blockNumberDesc collector)
      (Float64.of_Z
         (nearapi.SyncInfo.LatestBlockHeight (nearapi.Status.SyncInfo st))) [];
    gauge (versionBuildDesc collector)
      (Float64.of_Z
         (HashString (nearapi.Version.Build (nearapi.Status.Version st))))
      [ nearapi.Version.Version (nearapi.Status.Version st);
        nearapi.Version.Build (nearapi.Status.Version st) ] ].

Definition validators_failed_metrics (collector : NodeRpcMetrics Reason)
    (err : error) : list Metric :=
  map (fun d => invalidMetric d err)
    [ epochBlockProducedDesc collector;
      epochBlockExpectedDesc collector;
      epochChunksProducedDesc collector;
      epochChunksExpectedDesc collector;
      seatPriceDesc collector;
      epochStartHeightDesc collector;
      blockNumberDesc collector;
      syncingDesc collector;
      versionBuildDesc collector;
      currentValidatorStakeDesc collector;
      nextValidatorStakeDesc collector;
      currentProposalsDesc collector;
      prevEpochKickoutDesc collector ].

(** One pass of the seat-price update in the loop body. *)
Definition seat_step (seatPrice stake : float64) : float64 :=
  let seatPrice :=
    if Float64.eqb seatPrice Float64.zero then stake else seatPrice in
  if Float64.gtb seatPrice stake then stake else seatPrice.

(** The normalized stakes of the current validators, in list order. *)
Definition current_stakes (r : nearapi.Response Reason) : list float64 :=
  map (fun v => stake_value (nearapi.CurrentValidator.Stake v))
    (nearapi.Validators.CurrentValidators (nearapi.Validators r)).

(** The seat price the loop leaves in its local variable. *)
Definition seat_price (r : nearapi.Response Reason) : float64 :=
  fold_left seat_step (current_stakes r) Float64.zero.

Definition current_validator_metrics (collector : NodeRpcMetrics Reason)
    (v : nearapi.CurrentValidator.t) : list Metric :=
  if String.eqb (nearapi.CurrentValidator.AccountId v) (accountId collector)
  then
    [ gauge (currentValidatorStakeDesc collector)
        (stake_value (nearapi.CurrentValidator.Stake v)) [];
      gauge (epochBlockProducedDesc collector)
        (Float64.of_Z (nearapi.CurrentValidator.NumProducedBlocks v)) [];
      gauge (epochBlockExpectedDesc collector)
        (Float64.of_Z (nearapi.CurrentValidator.NumExpectedBlocks v)) [];
      gauge (epochChunksProducedDesc collector)
        (Float64.of_Z (nearapi.CurrentValidator.NumProducedChunks v)) [];
      gauge (epochChunksExpectedDesc collector)
        (Float64.of_Z (nearapi.CurrentValidator.NumExpectedChunks v)) [] ]
  else [].

Definition next_validator_metrics (collector : NodeRpcMetrics Reason)
    (v : nearapi.NextValidator.t) : list Metric :=
  if String.eqb (nearapi.NextValidator.AccountId v) (accountId collector)
  then [ gauge (nextValidatorStakeDesc collector)
           (stake_value (nearapi.NextValidator.Stake v)) [] ]
  else [].

Definition current_proposal_metrics (collector : NodeRpcMetrics Reason)
    (v : nearapi.CurrentProposal.t) : list Metric :=
  if String.eqb (nearapi.CurrentProposal.AccountId v) (accountId collector)
  then [ gauge (currentProposalsDesc collector)
           (stake_value (nearapi.CurrentProposal.Stake v)) [] ]
  else [].

Definition kickout_metrics (collector : NodeRpcMetrics Reason)
    (v : nearapi.PrevEpochKickOut.t Reason) : list Metric :=
  if String.eqb (nearapi.PrevEpochKickOut.AccountId v) (accountId collector)
  then [ gauge (prevEpochKickoutDesc collector) Float64.zero
           [Sprintf_v (nearapi.PrevEpochKickOut.Reason_ v)] ]
  else [].

Definition validators_metrics (collector : NodeRpcMetrics Reason)
    (r : nearapi.Response Reason) : list Metric :=
  let vs := nearapi.Validators r in
  [ gauge (epochStartHeightDesc collector)
      (Float64.of_Z (nearapi.Validators.EpochStartHeight vs)) [] ]
  ++ flat_map (current_validator_metrics collector)
       (nearapi.Validators.CurrentValidators vs)
  ++ [ gauge (seatPriceDesc collector) (seat_price r) [] ]
  ++ flat_map (next_validator_metrics collector)
       (nearapi.Validators.NextValidators vs)
  ++ flat_map (current_proposal_metrics collector)
       (nearapi.Validators.CurrentProposals vs)
  ++ flat_map (kickout_metrics collector)
       (nearapi.Validators.PrevEpochKickOut vs).

(** The records [Unmarshal] leaves in [res] for a contract-call result. *)
Definition decoded_delegators (d : nearapi.Response Reason)
    : list DelegatorAccount :=
  fst (Unmarshal (resultString (nearapi.Result.Result (nearapi.Result d))) []).

(** The error [Unmarshal] returns for a contract-call result. *)
Definition decode_error (d : nearapi.Response Reason) : option error :=
  snd (Unmarshal (resultString (nearapi.Result.Result (nearapi.Result d))) []).

Definition delegator_metric (collector : NodeRpcMetrics Reason)
    (delegator : DelegatorAccount) : Metric :=
  gauge (delegatorStakeDesc collector)
    (stake_value (StakedBalance delegator)) [AccountId delegator].

Definition delegators_metrics (collector : NodeRpcMetrics Reason)
    (d : nearapi.Response Reason) : list Metric :=
  map (delegator_metric collector) (decoded_delegators d).

(** The three requests of a full scrape. *)
Definition status_request : nearapi.Request := ("status", nearapi.PNil).
Definition validators_request : nearapi.Request :=
  ("validators", nearapi.PString "latest").
Definition query_request (collector : NodeRpcMetrics Reason) : nearapi.Request :=
  ("query", get_accounts_params collector).

(** The answers of the node behind a collector. *)
Definition status_answer (collector : NodeRpcMetrics Reason) :=
  nearapi.answer (client collector) "status" nearapi.PNil.
Definition validators_answer (collector : NodeRpcMetrics Reason) :=
  nearapi.answer (client collector) "validators" (nearapi.PString "latest").
Definition query_answer (collector : NodeRpcMetrics Reason) :=
  nearapi.answer (client collector) "query" (get_accounts_params collector).

(** A sample, sent for one of the descriptors [ds]. *)
Definition sample_for (ds : list Desc) (m : Metric) : Prop :=
  is_invalid m = false /\ In (Desc_of m) ds.

(** The samples of step 2 around the seat price. *)
Definition before_seat_price (collector : NodeRpcMetrics Reason)
    (r : nearapi.Response Reason) : list Metric :=
  [ gauge (epochStartHeightDesc collector)
      (Float64.of_Z
         (nearapi.Validators.EpochStartHeight (nearapi.Validators r))) [] ]
  ++ flat_map (current_validator_metrics collector)
       (nearapi.Validators.CurrentValidators (nearapi.Validators r)).

Definition after_seat_price (collector : NodeRpcMetrics Reason)
    (r : nearapi.Response Reason) : list Metric :=
  flat_map (next_validator_metrics collector)
    (nearapi.Validators.NextValidators (nearapi.Validators r))
  ++ flat_map (current_proposal_metrics collector)
       (nearapi.Validators.CurrentProposals (nearapi.Validators r))
  ++ flat_map (kickout_metrics collector)
       (nearapi.Validators.PrevEpochKickOut (nearapi.Validators r)).

(** What a whole scrape sends and requests, by the answers of the node. *)
Definition collect_metrics (collector : NodeRpcMetrics Reason) : list Metric :=
  match status_answer collector with
  | inr err => [invalidMetric (versionBuildDesc collector) err]
  | inl sr =>
      status_metrics collector sr ++
      match validators_answer collector with
      | inr err => validators_failed_metrics collector err
      | inl r =>
          validators_metrics collector r ++
          match query_answer collector with
          | inr err => [invalidMetric (delegatorStakeDesc collector) err]
          | inl d => delegators_metrics collector d
          end
      end
  end.

Definition collect_requests (collector : NodeRpcMetrics Reason)
    : list nearapi.Request :=
  match status_answer collector with
  | inr _ => [status_request]
  | inl _ =>
      match validators_answer collector with
      | inr _ => [status_request; validators_request]
      | inl _ =>
          [status_request; validators_request; query_request collector]
      end
  end.

End Scrape.


(** ** Sequencing effects

    Every operation of the collector only appends to the world.  [emit]
    appends; [runs c a ms reqs] says that [c], from any world, completes with
    [a] after sending [ms] and requesting [reqs] (and printing some lines). *)

Definition emit (w : World) (ms : list Metric)
    (reqs : list nearapi.Request) (lines : list string) : World :=
  {| ch := ch w ++ ms; rpc := rpc w ++ reqs; stdout := stdout w ++ lines |}.

Definition runs {A : Type} (c : M A) (a : A) (ms : list Metric)
    (reqs : list nearapi.Request) : Prop :=
  forall w, exists lines, c w = (Done a, emit w ms reqs lines).

(** [x] is a least element of [l] for the order of [float64]. *)
Definition is_minimum_of (x : float64) (l : list float64) : Prop :=
  In x l /\ forall y, In y l -> Float64.ltb y x = false.

(** ** Example nodes *)

Module Examples.

(** The bytes of a JSON text written with ['] for the double quote. *)
Fixpoint json_bytes (text : string) : list Z :=
  match text with
  | EmptyString => []
  | String c r =>
      (if Ascii.eqb c "'"%char then 34 else Z.of_N (N_of_ascii c))
      :: json_bytes r
  end.

Definition no_validators : nearapi.Validators.t string :=
  {| nearapi.Validators.EpochStartHeight := 0;
     nearapi.Validators.CurrentValidators := [];
     nearapi.Validators.NextValidators := [];
     nearapi.Validators.CurrentProposals := [];
     nearapi.Validators.PrevEpochKickOut := [] |}.

Definition no_status : nearapi.Status.t :=
  {| nearapi.Status.SyncInfo :=
       {| nearapi.SyncInfo.Syncing := false;
          nearapi.SyncInfo.LatestBlockHeight := 0 |};
     nearapi.Status.Version :=
       {| nearapi.Version.Version := ""; nearapi.Version.Build := "" |} |}.

Definition no_result : nearapi.Result.t := {| nearapi.Result.Result := [] |}.

(** A status response: the node is in sync at block 42000000. *)
Definition status_response : nearapi.Response string :=
  {| nearapi.Status :=
       {| nearapi.Status.SyncInfo :=
            {| nearapi.SyncInfo.Syncing := false;
               nearapi.SyncInfo.LatestBlockHeight := 42000000 |};
          nearapi.Status.Version :=
            {| nearapi.Version.Version := "1.19.0";
               nearapi.Version.Build := "foobar" |} |};
     nearapi.Validators := no_validators;
     nearapi.Result := no_result |}.

Definition validator (account stake : string) : nearapi.CurrentValidator.t :=
  {| nearapi.CurrentValidator.AccountId := account;
     nearapi.CurrentValidator.Stake := stake;
     nearapi.CurrentValidator.NumProducedBlocks := 10;
     nearapi.CurrentValidator.NumExpectedBlocks := 12;
     nearapi.CurrentValidator.NumProducedChunks := 30;
     nearapi.CurrentValidator.NumExpectedChunks := 36 |}.

Definition validators_response (current : list nearapi.CurrentValidator.t)
    (next : list nearapi.NextValidator.t)
    (proposals : list nearapi.CurrentProposal.t)
    (kickouts : list (nearapi.PrevEpochKickOut.t string))
    : nearapi.Response string :=
  {| nearapi.Status := no_status;
     nearapi.Validators :=
       {| nearapi.Validators.EpochStartHeight := 41990000;
          nearapi.Validators.CurrentValidators := current;
          nearapi.Validators.NextValidators := next;
          nearapi.Validators.CurrentProposals := proposals;
          nearapi.Validators.PrevEpochKickOut := kickouts |};
     nearapi.Result := no_result |}.

Definition query_response (result : list Z) : nearapi.Response string :=
  {| nearapi.Status := no_status;
     nearapi.Validators := no_validators;
     nearapi.Result := {| nearapi.Result.Result := result |} |}.

(** A node that answers the three methods as given. *)
Definition node (status validators query : nearapi.Response string + error)
    : nearapi.Client string :=
  {| nearapi.answer := fun method params =>
       if String.eqb method "status" then status
       else if String.eqb method "validators" then validators
       else query |}.

Definition unreachable : error :=
  errorString "dial tcp 127.0.0.1:3030: connect: connection refused".

(** Two validators and their successors; ["a.near"] is among them. *)
Definition two_validators : nearapi.Response string :=
  validators_response
    [ validator "a.near" "30000000000000000000000000";
      validator "b.near" "20000000000000000000000000" ]
    [ {| nearapi.NextValidator.AccountId := "a.near";
         nearapi.NextValidator.Stake := "31000000000000000000000000" |} ]
    [ {| nearapi.CurrentProposal.AccountId := "b.near";
         nearapi.CurrentProposal.Stake := "25000000000000000000000000" |} ]
    [ {| nearapi.PrevEpochKickOut.AccountId := "c.near";
         nearapi.PrevEpochKickOut.Reason_ := "Unstaked" |} ].

(** Three validators, the second with a stake of zero. *)
Definition zero_stake_validators : nearapi.Response string :=
  validators_response
    [ validator "a.near" "20000000000000000000000000";
      validator "b.near" "0";
      validator "c.near" "30000000000000000000000000" ]
    [] [] [].

(** A well-formed delegator list with one record. *)
Definition one_delegator : nearapi.Response string :=
  query_response
    (json_bytes
       "[{'account_id':'d.near','unstaked_balance':'0','staked_balance':'123456789012345678901','can_withdraw':true}]").

(** A delegator list whose record carries a number where the staked balance
    must be a string. *)
Definition mistyped_delegator : nearapi.Response string :=
  query_response
    (json_bytes "[{'account_id':'d.near','staked_balance':5}]").

(** A delegator list cut off in the middle. *)
Definition truncated_delegators : nearapi.Response string :=
  query_response (json_bytes "[{'account_id':'d.near','staked_ba").

(** The node cannot be reached. *)
Definition status_down : NodeRpcMetrics string :=
  NewNodeRpcMetrics
    (node (inr unreachable) (inl two_validators) (inl one_delegator))
    "a.near".

(** The node answers the status query only. *)
Definition validators_down : NodeRpcMetrics string :=
  NewNodeRpcMetrics
    (node (inl status_response) (inr unreachable) (inl one_delegator))
    "a.near".

(** The contract call fails. *)
Definition query_down : NodeRpcMetrics string :=
  NewNodeRpcMetrics
    (node (inl status_response) (inl two_validators) (inr unreachable))
    "a.near".

(** Every query succeeds and the account is a validator. *)
Definition all_up : NodeRpcMetrics string :=
  NewNodeRpcMetrics
    (node (inl status_response) (inl two_validators) (inl one_delegator))
    "a.near".

(** Every query succeeds and the account appears nowhere. *)
Definition stranger : NodeRpcMetrics string :=
  NewNodeRpcMetrics
    (node (inl status_response) (inl two_validators) (inl one_delegator))
    "x.near".

Definition zero_stake : NodeRpcMetrics string :=
  NewNodeRpcMetrics
    (node (inl status_response) (inl zero_stake_validators)
       (inl one_delegator))
    "a.near".

Definition mistyped : NodeRpcMetrics string :=
  NewNodeRpcMetrics
    (node (inl status_response) (inl two_validators) (inl mistyped_delegator))
    "a.near".

Definition truncated : NodeRpcMetrics string :=
  NewNodeRpcMetrics
    (node (inl status_response) (inl two_validators)
       (inl truncated_delegators))
    "a.near".

End Examples.


(** ** Further readings of a scrape *)

(** A sample is a gauge and carries as many label values as its descriptor
    has label names; a marker carries none. *)
Definition well_labelled (m : Metric) : Prop :=
  match m with
  | constMetric d valType _ labelValues =>
      valType = GaugeValue
      /\ List.length labelValues = List.length (variableLabels d)
  | invalidMetric _ _ => True
  end.

(** A float that is a zero or above zero. *)
Definition not_below_zero (x : float64) : bool :=
  Float64.is_zero x || Float64.ltb Float64.zero x.

(** A computation that prints the lines [lines], from any world. *)
Definition prints {A : Type} (c : M A) (lines : list string) : Prop :=
  forall w, stdout (snd (c w)) = stdout w ++ lines.

(** A string of ASCII characters only. *)
Definition ascii_only (s : string) : Prop :=
  Forall (fun b => b < 128) (bytes s).

Section Own.

Context {Reason : Type}.

(** The entries of the validator-set answer that carry the account of the
    collector, in list order. *)
Definition own_current (account : string) (r : nearapi.Response Reason)
    : list nearapi.CurrentValidator.t :=
  filter (fun v => String.eqb (nearapi.CurrentValidator.AccountId v) account)
    (nearapi.Validators.CurrentValidators (nearapi.Validators r)).

Definition own_next (account : string) (r : nearapi.Response Reason)
    : list nearapi.NextValidator.t :=
  filter (fun v => String.eqb (nearapi.NextValidator.AccountId v) account)
    (nearapi.Validators.NextValidators (nearapi.Validators r)).

Definition own_proposals (account : string) (r : nearapi.Response Reason)
    : list nearapi.CurrentProposal.t :=
  filter (fun v => String.eqb (nearapi.CurrentProposal.AccountId v) account)
    (nearapi.Validators.CurrentProposals (nearapi.Validators r)).

Definition own_kickouts (account : string) (r : nearapi.Response Reason)
    : list (nearapi.PrevEpochKickOut.t Reason) :=
  filter (fun v => String.eqb (nearapi.PrevEpochKickOut.AccountId v) account)
    (nearapi.Validators.PrevEpochKickOut (nearapi.Validators r)).

End Own.

(** * Properties *)

(** ** The effect calculus *)

Lemma emit_nil (w : World) : emit w [] [] [] = w.
Proof.
  destruct w as [c r s]. unfold emit. simpl. now rewrite !app_nil_r.
Qed.

Lemma emit_emit (w : World) ms reqs lines ms' reqs' lines' :
  emit (emit w ms reqs lines) ms' reqs' lines'
  = emit w (ms ++ ms') (reqs ++ reqs') (lines ++ lines').
Proof.
  unfold emit. simpl. now rewrite !app_assoc.
Qed.

Lemma runs_ret {A : Type} (a : A) : runs (ret a) a [] [].
Proof.
  intros w. exists []. unfold ret. now rewrite emit_nil.
Qed.

Lemma runs_bind {A B : Type} (c : M A) (k : A -> M B) a b ms reqs ms' reqs' :
  runs c a ms reqs ->
  runs (k a) b ms' reqs' ->
  runs (bind c k) b (ms ++ ms') (reqs ++ reqs').
Proof.
  intros Hc Hk w.
  destruct (Hc w) as [l1 E1].
  destruct (Hk (emit w ms reqs l1)) as [l2 E2].
  exists (l1 ++ l2). unfold bind. rewrite E1, E2. now rewrite emit_emit.
Qed.

Lemma runs_eq {A : Type} (c : M A) a ms reqs ms' reqs' :
  runs c a ms reqs -> ms = ms' -> reqs = reqs' -> runs c a ms' reqs'.
Proof.
  now intros H <- <-.
Qed.

Lemma runs_send (m : Metric) : runs (send m) tt [m] [].
Proof.
  intros w. exists []. unfold send, emit. now rewrite !app_nil_r.
Qed.

Lemma runs_Println (line : string) : runs (Println line) tt [] [].
Proof.
  intros w. exists [line]. unfold Println, emit. now rewrite !app_nil_r.
Qed.

Lemma runs_Get {Reason : Type} (client : nearapi.Client Reason) method params :
  runs (Get client method params) (nearapi.answer client method params)
    [] [(method, params)].
Proof.
  intros w. exists []. unfold Get, emit. now rewrite !app_nil_r.
Qed.

Lemma runs_gauge (d : Desc) (v : float64) (labelValues : list string) :
  List.length labelValues = List.length (variableLabels d) ->
  runs (MustNewConstMetric d GaugeValue v labelValues)
    (gauge d v labelValues) [] [].
Proof.
  intros H. unfold MustNewConstMetric, NewConstMetric.
  rewrite H, Nat.eqb_refl. apply runs_ret.
Qed.

Lemma runs_range {A : Type} (body : A -> M unit) (f : A -> list Metric)
    (l : list A) :
  (forall v, runs (body v) tt (f v) []) ->
  runs (range l body) tt (flat_map f l) [].
Proof.
  intros Hbody. induction l as [|v rest IH]; simpl.
  - apply runs_ret.
  - eapply runs_eq; [ eapply runs_bind; [ apply Hbody | apply IH ] | | ];
      reflexivity.
Qed.

Lemma runs_range_with {A S V : Type} (body : S -> A -> M S)
    (step : S -> V -> S) (g : A -> V) (f : A -> list Metric) (l : list A) :
  (forall s v, runs (body s v) (step s (g v)) (f v) []) ->
  forall s,
    runs (range_with l s body) (fold_left step (map g l) s) (flat_map f l) [].
Proof.
  intros Hbody. induction l as [|v rest IH]; intros s; simpl.
  - apply runs_ret.
  - eapply runs_eq; [ eapply runs_bind; [ apply Hbody | apply IH ] | | ];
      reflexivity.
Qed.

(** One step of a sequence: run the head, go on with the rest. *)
Ltac run_step :=
  first
    [ apply runs_ret
    | apply runs_send
    | apply runs_Println
    | apply runs_Get
    | apply runs_gauge; reflexivity
    | eapply runs_bind; [ | cbv beta ] ].

(** ** [GetStakeFromString] *)

Section Stake.

Context {Reason : Type} {lib : GoLib Reason}.

(** [GetStakeFromString] sends nothing, asks nothing and returns its value. *)
Lemma runs_GetStakeFromString (s : string) :
  runs (GetStakeFromString s) (stake_value s) [] [].
Proof.
  intros w. unfold stake_value, GetStakeFromString.
  destruct (len s <=? 19)%nat.
  - exists []. unfold ret. simpl. now rewrite emit_nil.
  - destruct (ParseFloat (slice s 0 (len s - 19)) 64) as [v [e|]].
    + exists [Error e]. unfold bind, Println, ret, emit. simpl.
      now rewrite !app_nil_r.
    + exists []. unfold ret. simpl. now rewrite emit_nil.
Qed.

Lemma math_Pow_10_5 : math.Pow (Float64.of_Z 10) 5 = Float64.of_Z 100000.
Proof. vm_compute. reflexivity. Qed.

Lemma stake_value_short (s : string) :
  (len s <= 19)%nat -> stake_value s = Float64.zero.
Proof.
  intros H. unfold stake_value, GetStakeFromString.
  apply Nat.leb_le in H. now rewrite H.
Qed.

Lemma stake_value_parsed (s : string) (v : float64) :
  (19 < len s)%nat ->
  ParseFloat (slice s 0 (len s - 19)) 64 = (v, None) ->
  stake_value s = Float64.div v (Float64.of_Z 100000).
Proof.
  intros H E. unfold stake_value, GetStakeFromString.
  apply Nat.leb_gt in H. rewrite H, E. unfold ret. cbn [fst].
  now rewrite math_Pow_10_5.
Qed.

Lemma stake_value_failed (s : string) (v : float64) (e : error) :
  (19 < len s)%nat ->
  ParseFloat (slice s 0 (len s - 19)) 64 = (v, Some e) ->
  stake_value s = Float64.zero.
Proof.
  intros H E. unfold stake_value, GetStakeFromString.
  apply Nat.leb_gt in H. now rewrite H, E.
Qed.

End Stake.

(** ** What [Collect] sends, step by step *)

Section Steps.

Context {Reason : Type} {lib : GoLib Reason}.
Variable client : nearapi.Client Reason.
Variable account : string.

Local Abbreviation collector := (NewNodeRpcMetrics client account).

Lemma runs_collect_status (sr : nearapi.Response Reason) :
  runs (collect_status collector sr) tt (status_metrics collector sr) [].
Proof.
  unfold collect_status.
  eapply runs_eq; [ repeat run_step | reflexivity | reflexivity ].
Qed.

Lemma runs_validators_failed (err : error) :
  runs (validators_failed collector err) tt
    (validators_failed_metrics collector err) [].
Proof.
  unfold validators_failed.
  eapply runs_eq; [ repeat run_step | reflexivity | reflexivity ].
Qed.

Lemma runs_current_validator_body (seatPrice : float64)
    (v : nearapi.CurrentValidator.t) :
  runs (current_validator_body collector seatPrice v)
    (seat_step seatPrice (stake_value (nearapi.CurrentValidator.Stake v)))
    (current_validator_metrics collector v) [].
Proof.
  unfold current_validator_body, current_validator_metrics.
  destruct (String.eqb _ _).
  - eapply runs_eq;
      [ eapply runs_bind; [ apply runs_GetStakeFromString | cbv beta ];
        repeat run_step
      | reflexivity | reflexivity ].
  - eapply runs_eq;
      [ eapply runs_bind; [ apply runs_GetStakeFromString | cbv beta ];
        repeat run_step
      | reflexivity | reflexivity ].
Qed.

Lemma runs_next_validator_body (v : nearapi.NextValidator.t) :
  runs (next_validator_body collector v) tt
    (next_validator_metrics collector v) [].
Proof.
  unfold next_validator_body, next_validator_metrics.
  destruct (String.eqb _ _); [ | apply runs_ret ].
  eapply runs_eq;
    [ eapply runs_bind; [ apply runs_GetStakeFromString | cbv beta ];
      repeat run_step
    | reflexivity | reflexivity ].
Qed.

Lemma runs_current_proposal_body (v : nearapi.CurrentProposal.t) :
  runs (current_proposal_body collector v) tt
    (current_proposal_metrics collector v) [].
Proof.
  unfold current_proposal_body, current_proposal_metrics.
  destruct (String.eqb _ _); [ | apply runs_ret ].
  eapply runs_eq;
    [ eapply runs_bind; [ apply runs_GetStakeFromString | cbv beta ];
      repeat run_step
    | reflexivity | reflexivity ].
Qed.

Lemma runs_kickout_body (v : nearapi.PrevEpochKickOut.t Reason) :
  runs (kickout_body collector v) tt (kickout_metrics collector v) [].
Proof.
  unfold kickout_body, kickout_metrics.
  destruct (String.eqb _ _); [ | apply runs_ret ].
  eapply runs_eq; [ repeat run_step | reflexivity | reflexivity ].
Qed.

Lemma runs_delegator_body (delegator : DelegatorAccount) :
  runs (delegator_body collector delegator) tt
    [delegator_metric collector delegator] [].
Proof.
  unfold delegator_body, delegator_metric.
  eapply runs_eq;
    [ eapply runs_bind; [ apply runs_GetStakeFromString | cbv beta ];
      repeat run_step
    | reflexivity | reflexivity ].
Qed.

Lemma runs_collect_validators (r : nearapi.Response Reason) :
  runs (collect_validators collector r) tt (validators_metrics collector r) [].
Proof.
  unfold collect_validators, validators_metrics, seat_price, current_stakes.
  cbv zeta.
  eapply runs_eq.
  - eapply runs_bind; [ apply runs_gauge; reflexivity | cbv beta ].
    eapply runs_bind; [ apply runs_send | cbv beta ].
    eapply runs_bind;
      [ apply (runs_range_with (current_validator_body collector) seat_step
                 (fun v => stake_value (nearapi.CurrentValidator.Stake v))
                 (current_validator_metrics collector));
        intros; apply runs_current_validator_body
      | cbv beta ].
    eapply runs_bind; [ apply runs_gauge; reflexivity | cbv beta ].
    eapply runs_bind; [ apply runs_send | cbv beta ].
    eapply runs_bind;
      [ apply runs_range; intros; apply runs_next_validator_body | cbv beta ].
    eapply runs_bind;
      [ apply runs_range; intros; apply runs_current_proposal_body
      | cbv beta ].
    apply runs_range; intros; apply runs_kickout_body.
  - reflexivity.
  - reflexivity.
Qed.

Lemma flat_map_singleton {A B : Type} (f : A -> B) (l : list A) :
  flat_map (fun x => [f x]) l = map f l.
Proof.
  induction l as [|x l IH]; simpl; now rewrite ?IH.
Qed.

End Steps.

(** ** The whole scrape *)

Section Whole.

Context {Reason : Type} {lib : GoLib Reason}.
Variable node : nearapi.Client Reason.
Variable account : string.

Local Abbreviation collector := (NewNodeRpcMetrics node account).

Lemma runs_collect_delegators :
  runs (collect_delegators collector) tt
    (match query_answer collector with
     | inr err => [invalidMetric (delegatorStakeDesc collector) err]
     | inl d => delegators_metrics collector d
     end)
    [query_request collector].
Proof.
  assert (forall a : nearapi.Response Reason + error,
            runs
              (match a with
               | inr err =>
                   send (NewInvalidMetric (delegatorStakeDesc collector) err)
               | inl d =>
                   let (res, _) :=
                     Unmarshal
                       (resultString
                          (nearapi.Result.Result (nearapi.Result d))) [] in
                   range res (delegator_body collector)
               end) tt
              (match a with
               | inr err => [invalidMetric (delegatorStakeDesc collector) err]
               | inl d => delegators_metrics collector d
               end) []) as Hrest.
  { intros [d|err].
    - unfold delegators_metrics, decoded_delegators.
      destruct (Unmarshal _ _) as [res e]. cbn [fst].
      rewrite <- flat_map_singleton.
      apply runs_range. intros v. apply runs_delegator_body.
    - apply runs_send. }
  unfold collect_delegators.
  eapply runs_eq;
    [ eapply runs_bind; [ apply runs_Get | apply Hrest ]
    | reflexivity | reflexivity ].
Qed.

(** [Collect] completes from any world, having sent [collect_metrics] and
    requested [collect_requests]. *)
Lemma runs_Collect :
  runs (Collect collector) tt (collect_metrics collector)
    (collect_requests collector).
Proof.
  unfold Collect, collect_metrics, collect_requests.
  unfold status_answer, validators_answer.
  destruct (nearapi.answer (client collector) "status" nearapi.PNil)
    as [sr|err] eqn:Es;
    [ destruct (nearapi.answer (client collector) "validators"
                  (nearapi.PString "latest")) as [r|err] eqn:Ev | ].
  - eapply runs_eq.
    + eapply runs_bind; [ apply runs_Get | cbv beta ]. rewrite Es.
      eapply runs_bind; [ apply runs_collect_status | cbv beta ].
      eapply runs_bind; [ apply runs_Get | cbv beta ]. rewrite Ev.
      eapply runs_bind; [ apply runs_collect_validators | cbv beta ].
      apply runs_collect_delegators.
    + reflexivity.
    + reflexivity.
  - eapply runs_eq.
    + eapply runs_bind; [ apply runs_Get | cbv beta ]. rewrite Es.
      eapply runs_bind; [ apply runs_collect_status | cbv beta ].
      eapply runs_bind; [ apply runs_Get | cbv beta ]. rewrite Ev.
      apply runs_validators_failed.
    + reflexivity.
    + reflexivity.
  - eapply runs_eq.
    + eapply runs_bind; [ apply runs_Get | cbv beta ]. rewrite Es.
      apply runs_send.
    + reflexivity.
    + reflexivity.
Qed.

Lemma scrape_eq :
  exists lines,
    scrape collector
    = (Done tt,
       {| ch := collect_metrics collector;
          rpc := collect_requests collector;
          stdout := lines |}).
Proof.
  destruct (runs_Collect empty_world) as [lines E].
  exists lines. unfold scrape. rewrite E. reflexivity.
Qed.

Lemma emitted_eq : emitted collector = collect_metrics collector.
Proof.
  unfold emitted. destruct scrape_eq as [lines ->]. reflexivity.
Qed.

Lemma requested_eq : requested collector = collect_requests collector.
Proof.
  unfold requested. destruct scrape_eq as [lines ->]. reflexivity.
Qed.

Lemma scrape_completes : completes collector.
Proof.
  unfold completes. destruct scrape_eq as [lines ->]. reflexivity.
Qed.

End Whole.

(** ** Which descriptors each part of a scrape uses *)

Lemma filter_none {A : Type} (f : A -> bool) (l : list A) :
  (forall x, In x l -> f x = false) -> filter f l = [].
Proof.
  induction l as [|x l IH]; intros H; simpl; [ reflexivity | ].
  rewrite (H x (or_introl eq_refl)). apply IH.
  intros y Hy. apply H. now right.
Qed.

Section Parts.

Context {Reason : Type} {lib : GoLib Reason}.
Variable node : nearapi.Client Reason.
Variable account : string.

Local Abbreviation collector := (NewNodeRpcMetrics node account).

Lemma in_status_metrics (sr : nearapi.Response Reason) (m : Metric) :
  In m (status_metrics collector sr) ->
  sample_for
    [ syncingDesc collector; blockNumberDesc collector;
      versionBuildDesc collector ] m.
Proof.
  unfold status_metrics, sample_for. simpl.
  intros [<-|[<-|[<-|[]]]]; simpl; auto.
Qed.

Lemma in_current_validator_metrics (l : list nearapi.CurrentValidator.t)
    (m : Metric) :
  In m (flat_map (current_validator_metrics collector) l) ->
  sample_for
    [ currentValidatorStakeDesc collector;
      epochBlockProducedDesc collector; epochBlockExpectedDesc collector;
      epochChunksProducedDesc collector; epochChunksExpectedDesc collector ]
    m.
Proof.
  rewrite in_flat_map. intros (v & _ & H).
  unfold current_validator_metrics in H.
  destruct (String.eqb _ _); [ | destruct H ].
  unfold sample_for. simpl in *.
  destruct H as [<-|[<-|[<-|[<-|[<-|[]]]]]]; simpl; auto 10.
Qed.

Lemma in_next_validator_metrics (l : list nearapi.NextValidator.t)
    (m : Metric) :
  In m (flat_map (next_validator_metrics collector) l) ->
  sample_for [ nextValidatorStakeDesc collector ] m.
Proof.
  rewrite in_flat_map. intros (v & _ & H).
  unfold next_validator_metrics in H.
  destruct (String.eqb _ _); [ | destruct H ].
  unfold sample_for. simpl in *. destruct H as [<-|[]]; simpl; auto.
Qed.

Lemma in_current_proposal_metrics (l : list nearapi.CurrentProposal.t)
    (m : Metric) :
  In m (flat_map (current_proposal_metrics collector) l) ->
  sample_for [ currentProposalsDesc collector ] m.
Proof.
  rewrite in_flat_map. intros (v & _ & H).
  unfold current_proposal_metrics in H.
  destruct (String.eqb _ _); [ | destruct H ].
  unfold sample_for. simpl in *. destruct H as [<-|[]]; simpl; auto.
Qed.

Lemma in_kickout_metrics (l : list (nearapi.PrevEpochKickOut.t Reason))
    (m : Metric) :
  In m (flat_map (kickout_metrics collector) l) ->
  sample_for [ prevEpochKickoutDesc collector ] m.
Proof.
  rewrite in_flat_map. intros (v & _ & H).
  unfold kickout_metrics in H.
  destruct (String.eqb _ _); [ | destruct H ].
  unfold sample_for. simpl in *. destruct H as [<-|[]]; simpl; auto.
Qed.

Lemma in_delegators_metrics (d : nearapi.Response Reason) (m : Metric) :
  In m (delegators_metrics collector d) ->
  sample_for [ delegatorStakeDesc collector ] m.
Proof.
  unfold delegators_metrics. rewrite in_map_iff. intros (a & <- & _).
  unfold sample_for. simpl. auto.
Qed.

Lemma validators_metrics_split (r : nearapi.Response Reason) :
  validators_metrics collector r
  = before_seat_price collector r
    ++ [ gauge (seatPriceDesc collector) (seat_price r) [] ]
    ++ after_seat_price collector r.
Proof.
  unfold validators_metrics, before_seat_price, after_seat_price.
  cbv zeta. now rewrite <- !app_assoc.
Qed.

Lemma in_before_seat_price (r : nearapi.Response Reason) (m : Metric) :
  In m (before_seat_price collector r) ->
  sample_for
    [ epochStartHeightDesc collector;
      currentValidatorStakeDesc collector;
      epochBlockProducedDesc collector; epochBlockExpectedDesc collector;
      epochChunksProducedDesc collector; epochChunksExpectedDesc collector ]
    m.
Proof.
  unfold before_seat_price. rewrite in_app_iff. intros [H|H].
  - destruct H as [<-|[]]. unfold sample_for. simpl. auto.
  - apply in_current_validator_metrics in H. destruct H as [H1 H2].
    split; [ exact H1 | now right ].
Qed.

Lemma in_after_seat_price (r : nearapi.Response Reason) (m : Metric) :
  In m (after_seat_price collector r) ->
  sample_for
    [ nextValidatorStakeDesc collector; currentProposalsDesc collector;
      prevEpochKickoutDesc collector ] m.
Proof.
  unfold after_seat_price, sample_for. rewrite !in_app_iff.
  intros [H|[H|H]].
  - apply in_next_validator_metrics in H. destruct H as [H1 [<-|[]]].
    split; simpl; auto.
  - apply in_current_proposal_metrics in H. destruct H as [H1 [<-|[]]].
    split; simpl; auto.
  - apply in_kickout_metrics in H. destruct H as [H1 [<-|[]]].
    split; simpl; auto.
Qed.

Lemma in_validators_metrics (r : nearapi.Response Reason) (m : Metric) :
  In m (validators_metrics collector r) ->
  sample_for
    [ epochStartHeightDesc collector;
      currentValidatorStakeDesc collector;
      epochBlockProducedDesc collector; epochBlockExpectedDesc collector;
      epochChunksProducedDesc collector; epochChunksExpectedDesc collector;
      seatPriceDesc collector;
      nextValidatorStakeDesc collector; currentProposalsDesc collector;
      prevEpochKickoutDesc collector ] m.
Proof.
  rewrite validators_metrics_split, !in_app_iff. intros [H|[H|H]].
  - apply in_before_seat_price in H. destruct H as [H1 H2].
    split; [ exact H1 | ]. simpl in *. intuition.
  - destruct H as [<-|[]]. split; simpl; auto 10.
  - apply in_after_seat_price in H. destruct H as [H1 H2].
    split; [ exact H1 | ]. simpl in *. intuition.
Qed.

End Parts.

(** Nothing in [l] is sent for [d] when every element is a sample for a
    descriptor of [ds] and no descriptor of [ds] names [d]'s metric. *)
Lemma sent_for_none (d : Desc) (ds : list Desc) (l : list Metric) :
  (forall m, In m l -> sample_for ds m) ->
  forallb (fun d' => negb (same_desc d' d)) ds = true ->
  sent_for d l = [].
Proof.
  intros Hl Hds. unfold sent_for. apply filter_none. intros m Hm.
  destruct (Hl m Hm) as [_ Hin].
  rewrite forallb_forall in Hds. specialize (Hds _ Hin).
  now apply negb_true_iff in Hds.
Qed.

Lemma sent_for_app (d : Desc) (l l' : list Metric) :
  sent_for d (l ++ l') = sent_for d l ++ sent_for d l'.
Proof. apply filter_app. Qed.

(** * Properties of a scrape *)

Section Failures.

Context {Reason : Type} {lib : GoLib Reason}.
Variable node : nearapi.Client Reason.
Variable account : string.

Local Abbreviation collector := (NewNodeRpcMetrics node account).

(** C4.  If the status query fails, the scrape sends exactly one metric,
    the invalid marker built from the build-version descriptor and the error
    of the query; it asks the node nothing but the status, and [Collect]
    returns normally. *)
Theorem C4_status_failure (err : error) :
  status_answer collector = inr err ->
  emitted collector = [invalidMetric (versionBuildDesc collector) err]
  /\ requested collector = [status_request]
  /\ completes collector.
Proof.
  intros Hs.
  rewrite emitted_eq, requested_eq.
  unfold collect_metrics, collect_requests. rewrite Hs.
  repeat split. apply scrape_completes.
Qed.

Lemma status_metrics_samples (sr : nearapi.Response Reason) :
  Forall (fun m => is_invalid m = false) (status_metrics collector sr).
Proof.
  apply Forall_forall. intros m Hm.
  now destruct (in_status_metrics node account sr m Hm).
Qed.

Lemma validators_metrics_samples (r : nearapi.Response Reason) :
  Forall (fun m => is_invalid m = false) (validators_metrics collector r).
Proof.
  apply Forall_forall. intros m Hm.
  now destruct (in_validators_metrics node account r m Hm).
Qed.

Lemma delegators_metrics_samples (d : nearapi.Response Reason) :
  Forall (fun m => is_invalid m = false) (delegators_metrics collector d).
Proof.
  apply Forall_forall. intros m Hm.
  now destruct (in_delegators_metrics node account d m Hm).
Qed.

(** C2.  If the status query succeeds and the validator-set query fails, the
    scrape sends the sync-state, block-height and version/build samples and
    then thirteen invalid markers: one for every descriptor of the collector
    except the delegator-stake one, each carrying the error of the query.
    The node is asked for the status and the validators only, never for the
    delegators, and [Collect] returns normally. *)
Theorem C2_validators_failure (sr : nearapi.Response Reason) (err : error) :
  status_answer collector = inl sr ->
  validators_answer collector = inr err ->
  emitted collector
  = status_metrics collector sr ++ validators_failed_metrics collector err
  /\ List.length (status_metrics collector sr) = 3%nat
  /\ Forall (fun m => is_invalid m = false) (status_metrics collector sr)
  /\ List.length (validators_failed_metrics collector err) = 13%nat
  /\ Forall (fun m => exists d, m = invalidMetric d err)
       (validators_failed_metrics collector err)
  /\ NoDup (map (fun m => fqName (Desc_of m))
              (validators_failed_metrics collector err))
  /\ (forall d, In d (Describe collector) ->
        d <> delegatorStakeDesc collector ->
        In (invalidMetric d err) (validators_failed_metrics collector err))
  /\ requested collector = [status_request; validators_request]
  /\ ~ In (query_request collector) (requested collector)
  /\ completes collector.
Proof.
  intros Hs Hv.
  rewrite emitted_eq, requested_eq.
  unfold collect_metrics, collect_requests. rewrite Hs, Hv.
  split; [ reflexivity | ].
  split; [ reflexivity | ].
  split; [ apply status_metrics_samples | ].
  split; [ reflexivity | ].
  split.
  { unfold validators_failed_metrics. apply Forall_forall. intros m Hm.
    apply in_map_iff in Hm. destruct Hm as (d & <- & _). now exists d. }
  split.
  { unfold validators_failed_metrics. cbn.
    repeat (constructor; [ cbn; intuition discriminate | ]). constructor. }
  split.
  { intros d Hd Hne. unfold validators_failed_metrics.
    apply (in_map (fun d0 => invalidMetric d0 err)). cbn in Hd |- *.
    repeat (destruct Hd as [Hd|Hd];
            [ subst d; first [ tauto | exfalso; now apply Hne ] | ]).
    destruct Hd. }
  split; [ reflexivity | ].
  split.
  { cbn. unfold status_request, validators_request, query_request.
    intuition discriminate. }
  apply scrape_completes.
Qed.

(** C9.  If the status and validator-set queries succeed and the contract
    call fails, the scrape sends everything steps 1 and 2 send, all of it
    samples, and then one invalid marker for the delegator-stake descriptor
    with the error of the call; that marker is the only invalid one.  What
    steps 1 and 2 sent does not depend on the answer to the contract call: a
    collector of the same account whose node answers the first two queries
    alike sends the same metrics first. *)
Theorem C9_query_failure (sr r : nearapi.Response Reason) (err : error) :
  status_answer collector = inl sr ->
  validators_answer collector = inl r ->
  query_answer collector = inr err ->
  emitted collector
  = (status_metrics collector sr ++ validators_metrics collector r)
    ++ [invalidMetric (delegatorStakeDesc collector) err]
  /\ Forall (fun m => is_invalid m = false)
       (status_metrics collector sr ++ validators_metrics collector r)
  /\ filter is_invalid (emitted collector)
     = [invalidMetric (delegatorStakeDesc collector) err]
  /\ (forall node' : nearapi.Client Reason,
        status_answer (NewNodeRpcMetrics node' account) = inl sr ->
        validators_answer (NewNodeRpcMetrics node' account) = inl r ->
        exists rest,
          emitted (NewNodeRpcMetrics node' account)
          = (status_metrics collector sr ++ validators_metrics collector r)
            ++ rest)
  /\ requested collector
     = [status_request; validators_request; query_request collector]
  /\ completes collector.
Proof.
  intros Hs Hv Hq.
  assert (Hpre : Forall (fun m => is_invalid m = false)
                   (status_metrics collector sr
                    ++ validators_metrics collector r)).
  { apply Forall_app. split.
    - apply status_metrics_samples.
    - apply validators_metrics_samples. }
  rewrite emitted_eq, requested_eq.
  unfold collect_metrics, collect_requests. rewrite Hs, Hv, Hq.
  split; [ now rewrite app_assoc | ].
  split; [ exact Hpre | ].
  split.
  { rewrite app_assoc, filter_app.
    rewrite (filter_none is_invalid); [ reflexivity | ].
    intros m Hm. rewrite Forall_forall in Hpre. now apply Hpre. }
  split.
  { intros node' Hs' Hv'. rewrite emitted_eq. unfold collect_metrics.
    rewrite Hs', Hv'. eexists. apply app_assoc. }
  split; [ reflexivity | ].
  apply scrape_completes.
Qed.

End Failures.

Section Normalization.

Context {Reason : Type} {lib : GoLib Reason}.

(** C3.  [GetStakeFromString] returns 0 for a string of at most 19 bytes.
    For a longer string whose first [len(s) - 19] bytes [ParseFloat] parses
    to [v] without error it returns [v / 100000], and in neither case does
    it print or send anything.  So the 21-digit string
    "123456789012345678901", whose prefix is "12", gives 12 / 100000: the
    [float64] 8854437155380585 * 2^-66, which lies within half a unit in the
    last place of 0.00012. *)
Theorem C3_normalization (s : string) :
  ((len s <= 19)%nat ->
   forall w, GetStakeFromString s w = (Done Float64.zero, w))
  /\ (forall v,
        (19 < len s)%nat ->
        ParseFloat (slice s 0 (len s - 19)) 64 = (v, None) ->
        forall w,
          GetStakeFromString s w
          = (Done (Float64.div v (Float64.of_Z 100000)), w))
  /\ (ParseFloat "12" 64 = (Float64.of_Z 12, None) ->
      (forall w,
         GetStakeFromString "123456789012345678901" w
         = (Done (S754_finite false 8854437155380585 (-66)), w))
      /\ Float64.div (Float64.of_Z 12) (Float64.of_Z 100000)
         = S754_finite false 8854437155380585 (-66)
      /\ 2 * Z.abs (8854437155380585 * 100000 - 12 * 2 ^ 66) <= 100000).
Proof.
  split; [ | split ].
  - intros H w. unfold GetStakeFromString.
    apply Nat.leb_le in H. now rewrite H.
  - intros v H E w. unfold GetStakeFromString.
    apply Nat.leb_gt in H. rewrite H, E.
    now rewrite math_Pow_10_5.
  - intros E. split; [ | split ].
    + intros w. unfold GetStakeFromString.
      change (len "123456789012345678901" <=? 19)%nat with false.
      change (slice "123456789012345678901" 0
                (len "123456789012345678901" - 19)) with "12".
      rewrite E. rewrite math_Pow_10_5. reflexivity.
    + vm_compute. reflexivity.
    + vm_compute. discriminate.
Qed.

(** C7.  When [ParseFloat] rejects the first [len(s) - 19] bytes of a string
    longer than 19 bytes, [GetStakeFromString] prints the error and returns
    0; it sends nothing and does not panic.  Nor does such a failure reach
    the caller of [Collect]: for every node and account [Collect] returns
    normally, and every invalid marker it sends carries the error of one of
    its three queries. *)
Theorem C7_parse_failure (s : string) (v : float64) (e : error) :
  (19 < len s)%nat ->
  ParseFloat (slice s 0 (len s - 19)) 64 = (v, Some e) ->
  (forall w,
     GetStakeFromString s w
     = (Done Float64.zero,
        {| ch := ch w; rpc := rpc w; stdout := stdout w ++ [Error e] |}))
  /\ stake_value s = Float64.zero
  /\ (forall (node : nearapi.Client Reason) (account : string),
        completes (NewNodeRpcMetrics node account)
        /\ forall m,
             In m (emitted (NewNodeRpcMetrics node account)) ->
             is_invalid m = true ->
             exists d err,
               m = invalidMetric d err
               /\ (status_answer (NewNodeRpcMetrics node account) = inr err
                   \/ validators_answer (NewNodeRpcMetrics node account)
                      = inr err
                   \/ query_answer (NewNodeRpcMetrics node account)
                      = inr err)).
Proof.
  intros H E. split; [ | split ].
  - intros w. unfold GetStakeFromString.
    apply Nat.leb_gt in H. rewrite H, E. reflexivity.
  - now apply (stake_value_failed s v e).
  - intros node account. split; [ apply scrape_completes | ].
    intros m. rewrite emitted_eq. unfold collect_metrics.
    destruct (status_answer _) as [sr|err] eqn:Es.
    + rewrite in_app_iff. intros [Hm|Hm] Hinv.
      { apply in_status_metrics in Hm. destruct Hm as [Hm _]. congruence. }
      destruct (validators_answer _) as [r|err] eqn:Ev.
      * rewrite in_app_iff in Hm. destruct Hm as [Hm|Hm].
        { apply in_validators_metrics in Hm. destruct Hm as [Hm _].
          congruence. }
        destruct (query_answer _) as [d|err] eqn:Eq.
        { apply in_delegators_metrics in Hm. destruct Hm as [Hm _].
          congruence. }
        destruct Hm as [<-|[]]. eauto 6.
      * unfold validators_failed_metrics in Hm. apply in_map_iff in Hm.
        destruct Hm as (d & <- & _). eauto 6.
    + intros [<-|[]] _. eauto 6.
Qed.

End Normalization.

(** ** Integers that [float64] holds exactly *)

Lemma digits2_pos_lower (p : positive) :
  2 ^ (Zpos (digits2_pos p) - 1) <= Zpos p.
Proof.
  induction p as [p IH|p IH|]; simpl digits2_pos.
  - rewrite Pos2Z.inj_succ.
    replace (Z.succ (Zpos (digits2_pos p)) - 1)
      with (Z.succ (Zpos (digits2_pos p) - 1)) by lia.
    rewrite Z.pow_succ_r by lia. lia.
  - rewrite Pos2Z.inj_succ.
    replace (Z.succ (Zpos (digits2_pos p)) - 1)
      with (Z.succ (Zpos (digits2_pos p) - 1)) by lia.
    rewrite Z.pow_succ_r by lia. lia.
  - simpl. lia.
Qed.

Lemma digits2_pos_small (p : positive) :
  Zpos p < 2 ^ 32 -> Zpos (digits2_pos p) <= 32.
Proof.
  intros H. pose proof (digits2_pos_lower p) as L.
  destruct (Z_le_gt_dec (Zpos (digits2_pos p)) 32) as [|G]; [ assumption | ].
  exfalso.
  assert (2 ^ 32 <= 2 ^ (Zpos (digits2_pos p) - 1)).
  { apply Z.pow_le_mono_r; lia. }
  lia.
Qed.

Lemma digits2_pos_iter_xO (p k : positive) :
  digits2_pos (Pos.iter xO p k) = (digits2_pos p + k)%positive.
Proof.
  induction k as [|k IH] using Pos.peano_ind.
  - simpl. lia.
  - rewrite Pos.iter_succ. simpl digits2_pos. rewrite IH. lia.
Qed.

Lemma Zpos_iter_xO (p k : positive) :
  Zpos (Pos.iter xO p k) = Zpos p * 2 ^ Zpos k.
Proof.
  induction k as [|k IH] using Pos.peano_ind.
  - simpl. lia.
  - rewrite Pos.iter_succ, Pos2Z.inj_succ, Z.pow_succ_r by lia.
    rewrite Pos2Z.inj_xO, IH. lia.
Qed.

Lemma binary_round_aux_canonical (m : positive) (e : Z) :
  fexp Float64.prec Float64.emax (Zpos (digits2_pos m) + e) = e ->
  e <= Float64.emax - Float64.prec ->
  binary_round_aux Float64.prec Float64.emax false (Zpos m) e loc_Exact
  = S754_finite false m e.
Proof.
  intros Hc He. unfold binary_round_aux, shr_fexp.
  cbn [Zdigits2 shr_record_of_loc]. rewrite Hc, Z.sub_diag.
  cbn [shr shr_m loc_of_shr_record round_nearest_even Zdigits2
       shr_record_of_loc].
  rewrite Hc, Z.sub_diag. cbn [shr shr_m].
  destruct (Z.leb_spec e (Float64.emax - Float64.prec)); [ reflexivity | lia ].
Qed.

Lemma of_Z_small (p : positive) :
  Zpos p < 2 ^ 32 ->
  exists k,
    Zpos k = 53 - Zpos (digits2_pos p)
    /\ Float64.of_Z (Zpos p) = S754_finite false (Pos.iter xO p k) (Zneg k).
Proof.
  intros H. pose proof (digits2_pos_small p H) as D.
  assert (0 < Zpos (digits2_pos p)) by lia.
  unfold Float64.of_Z, binary_normalize, binary_round.
  assert (Hf : fexp Float64.prec Float64.emax (Zpos (digits2_pos p) + 0)
               = Zpos (digits2_pos p) - 53).
  { unfold fexp, emin, Float64.prec, Float64.emax. lia. }
  rewrite Hf.
  destruct (Zpos (digits2_pos p) - 53) as [|q|k] eqn:Ek; try lia.
  exists k. split; [ lia | ].
  unfold shl_align. cbn [Z.sub Z.opp Z.add].
  apply binary_round_aux_canonical.
  - rewrite digits2_pos_iter_xO.
    unfold fexp, emin, Float64.prec, Float64.emax. lia.
  - unfold Float64.prec, Float64.emax. lia.
Qed.

Lemma of_Z_exact (h : Z) :
  0 <= h < 2 ^ 32 -> Float64.to_Z (Float64.of_Z h) = Some h.
Proof.
  intros [H0 H1]. destruct h as [|p|p]; [ reflexivity | | lia ].
  destruct (of_Z_small p H1) as (k & Hk & ->).
  unfold Float64.to_Z. rewrite Zpos_iter_xO.
  rewrite Z.mod_mul by lia. rewrite Z.eqb_refl.
  rewrite Z.div_mul by lia. reflexivity.
Qed.

(** ** [HashString] is FNV-1a *)

Lemma Write_fnv1a (data : list Z) (h : Z) :
  fnv.Write h data = fnv1a_32_from h data.
Proof.
  revert h. induction data as [|c data IH]; intros h; [ reflexivity | ].
  unfold fnv.Write in *. simpl. rewrite IH. f_equal.
  change 4294967295 with (Z.ones 32). rewrite Z.land_ones by lia.
  reflexivity.
Qed.

Lemma Write_range (data : list Z) (h : Z) :
  0 <= h < 2 ^ 32 -> 0 <= fnv.Write h data < 2 ^ 32.
Proof.
  revert h. induction data as [|c data IH]; intros h Hh; [ exact Hh | ].
  unfold fnv.Write in *. simpl. apply IH. apply Z.mod_pos_bound. lia.
Qed.

Lemma HashString_fnv1a (s : string) : HashString s = fnv1a_32 (bytes s).
Proof.
  unfold HashString, fnv1a_32, fnv.Sum32, fnv.New32a. apply Write_fnv1a.
Qed.

Lemma HashString_range (s : string) : 0 <= HashString s < 2 ^ 32.
Proof.
  unfold HashString, fnv.Sum32, fnv.New32a. apply Write_range.
  unfold fnv.offset32. lia.
Qed.

Section VersionBuildSent.

Context {Reason : Type} {lib : GoLib Reason}.
Variable node : nearapi.Client Reason.
Variable account : string.

Local Abbreviation collector := (NewNodeRpcMetrics node account).

(** What a scrape sends for the build-version descriptor once the status
    query has succeeded: the sample, and the marker of a failed
    validator-set query if there is one. *)
Lemma sent_for_versionBuild (sr : nearapi.Response Reason) :
  status_answer collector = inl sr ->
  sent_for (versionBuildDesc collector) (emitted collector)
  = gauge (versionBuildDesc collector)
      (Float64.of_Z
         (HashString
            (nearapi.Version.Build
               (nearapi.Status.Version (nearapi.Status sr)))))
      [ nearapi.Version.Version (nearapi.Status.Version (nearapi.Status sr));
        nearapi.Version.Build (nearapi.Status.Version (nearapi.Status sr)) ]
    :: match validators_answer collector with
       | inr err => [invalidMetric (versionBuildDesc collector) err]
       | inl _ => []
       end.
Proof.
  intros Hs. rewrite emitted_eq. unfold collect_metrics. rewrite Hs.
  rewrite sent_for_app.
  change (sent_for (versionBuildDesc collector) (status_metrics collector sr))
    with [ gauge (versionBuildDesc collector)
             (Float64.of_Z
                (HashString
                   (nearapi.Version.Build
                      (nearapi.Status.Version (nearapi.Status sr)))))
             [ nearapi.Version.Version
                 (nearapi.Status.Version (nearapi.Status sr));
               nearapi.Version.Build
                 (nearapi.Status.Version (nearapi.Status sr)) ] ].
  cbn [app]. f_equal.
  destruct (validators_answer collector) as [r|err]; [ | reflexivity ].
  rewrite sent_for_app.
  rewrite (sent_for_none _ _ _ (in_validators_metrics node account r))
    by reflexivity.
  destruct (query_answer collector) as [d|err]; [ | reflexivity ].
  now rewrite (sent_for_none _ _ _ (in_delegators_metrics node account d)).
Qed.

End VersionBuildSent.

Section VersionBuild.

Context {Reason : Type} {lib : GoLib Reason}.
Variable node : nearapi.Client Reason.
Variable account : string.

Local Abbreviation collector := (NewNodeRpcMetrics node account).

(** C5.  Once the status query has succeeded, the one sample a scrape sends
    for [near_version_build] has the value [float64(HashString(build))] and
    the labels version and build.  [HashString] is the 32-bit FNV-1a hash of
    the bytes of its argument, a number below 2^32 that [float64] holds
    exactly.  It depends on the string alone: equal strings hash alike, and
    two scrapes, of any nodes and accounts, whose status answers carry the
    same build string send the same value. *)
Theorem C5_version_build (sr : nearapi.Response Reason) :
  status_answer collector = inl sr ->
  samples_of (versionBuildDesc collector) (emitted collector)
  = [ gauge (versionBuildDesc collector)
        (Float64.of_Z
           (fnv1a_32
              (bytes
                 (nearapi.Version.Build
                    (nearapi.Status.Version (nearapi.Status sr))))))
        [ nearapi.Version.Version
            (nearapi.Status.Version (nearapi.Status sr));
          nearapi.Version.Build
            (nearapi.Status.Version (nearapi.Status sr)) ] ]
  /\ (forall s,
        HashString s = fnv1a_32 (bytes s)
        /\ 0 <= HashString s < 2 ^ 32
        /\ Float64.to_Z (Float64.of_Z (HashString s)) = Some (HashString s))
  /\ (forall s1 s2, s1 = s2 -> HashString s1 = HashString s2)
  /\ (forall (node' : nearapi.Client Reason) (account' : string)
             (sr' : nearapi.Response Reason),
        status_answer (NewNodeRpcMetrics node' account') = inl sr' ->
        nearapi.Version.Build (nearapi.Status.Version (nearapi.Status sr'))
        = nearapi.Version.Build (nearapi.Status.Version (nearapi.Status sr)) ->
        values_of (versionBuildDesc (NewNodeRpcMetrics node' account'))
          (emitted (NewNodeRpcMetrics node' account'))
        = values_of (versionBuildDesc collector) (emitted collector)).
Proof.
  intros Hs. split; [ | split; [ | split ] ].
  - unfold samples_of. rewrite (sent_for_versionBuild node account sr Hs).
    rewrite HashString_fnv1a.
    destruct (validators_answer collector); reflexivity.
  - intros s. split; [ apply HashString_fnv1a | ].
    split; [ apply HashString_range | ].
    apply of_Z_exact, HashString_range.
  - intros s1 s2 ->. reflexivity.
  - intros node' account' sr' Hs' Hb. unfold values_of, samples_of.
    rewrite (sent_for_versionBuild node account sr Hs).
    rewrite (sent_for_versionBuild node' account' sr' Hs'), Hb.
    destruct (validators_answer collector),
      (validators_answer (NewNodeRpcMetrics node' account')); reflexivity.
Qed.

End VersionBuild.

(** ** The order of [float64] and the seat-price loop *)

Lemma Pos_compare_cont_refl (m : positive) : Pos.compare_cont Eq m m = Eq.
Proof. apply Pos.compare_refl. Qed.

Lemma SFltb_irrefl (x : float64) : Float64.ltb x x = false.
Proof.
  unfold Float64.ltb, SFltb.
  destruct x as [s|s| |s m e]; try destruct s; simpl; try reflexivity;
    rewrite Z.compare_refl, Pos_compare_cont_refl; reflexivity.
Qed.

Lemma SFltb_trans (x y z : float64) :
  Float64.ltb x y = true -> Float64.ltb y z = true -> Float64.ltb x z = true.
Proof.
  unfold Float64.ltb, SFltb.
  destruct x as [sx|sx| |sx mx ex], y as [sy|sy| |sy my ey],
    z as [sz|sz| |sz mz ez];
    try destruct sx; try destruct sy; try destruct sz;
    simpl; try reflexivity; try discriminate.
  all: change (PosDef.Pos.compare_cont Eq mx my) with (mx ?= my)%positive;
    change (PosDef.Pos.compare_cont Eq my mz) with (my ?= mz)%positive;
    change (PosDef.Pos.compare_cont Eq mx mz) with (mx ?= mz)%positive;
    destruct (Z.compare_spec ex ey), (Z.compare_spec ey ez),
      (Z.compare_spec ex ez);
    try lia; try discriminate; try reflexivity;
    destruct (Pos.compare_spec mx my), (Pos.compare_spec my mz),
      (Pos.compare_spec mx mz);
    simpl; try lia; try discriminate; try reflexivity.
Qed.

(** The zeros are the floats equal to 0. *)
Lemma eqb_zero (x : float64) :
  Float64.eqb x Float64.zero = Float64.is_zero x.
Proof.
  destruct x as [s|s| |s m e]; try destruct s; reflexivity.
Qed.

Lemma seat_step_zero (seatPrice stake : float64) :
  Float64.is_zero seatPrice = true -> seat_step seatPrice stake = stake.
Proof.
  intros H. unfold seat_step. rewrite eqb_zero, H.
  unfold Float64.gtb. fold (Float64.ltb stake stake).
  now rewrite SFltb_irrefl.
Qed.

Lemma seat_step_nonzero (seatPrice stake : float64) :
  Float64.is_zero seatPrice = false ->
  seat_step seatPrice stake
  = if Float64.ltb stake seatPrice then stake else seatPrice.
Proof.
  intros H. unfold seat_step. now rewrite eqb_zero, H.
Qed.

(** Over stakes that are all zero the loop leaves a zero. *)
Lemma seat_fold_zeros (l : list float64) (seatPrice : float64) :
  Float64.is_zero seatPrice = true ->
  Forall (fun x => Float64.is_zero x = true) l ->
  Float64.is_zero (fold_left seat_step l seatPrice) = true.
Proof.
  revert seatPrice. induction l as [|x l IH]; intros seatPrice Hs Hl.
  - exact Hs.
  - inversion Hl as [|? ? Hx Hl']; subst. simpl.
    apply IH; [ | exact Hl' ]. now rewrite seat_step_zero.
Qed.

(** Over stakes none of which is zero, a seat price that is a least element
    of what was seen stays one. *)
Lemma seat_fold_minimum (l seen : list float64) (seatPrice : float64) :
  Float64.is_zero seatPrice = false ->
  is_minimum_of seatPrice seen ->
  Forall (fun x => Float64.is_zero x = false) l ->
  is_minimum_of (fold_left seat_step l seatPrice) (seen ++ l).
Proof.
  revert seen seatPrice. induction l as [|x l IH]; intros seen sp Hnz Hmin Hl.
  - now rewrite app_nil_r.
  - inversion Hl as [|? ? Hx Hl']; subst. simpl.
    replace (seen ++ x :: l) with ((seen ++ [x]) ++ l)
      by now rewrite <- app_assoc.
    rewrite seat_step_nonzero by exact Hnz.
    destruct Hmin as [Hin Hle].
    destruct (Float64.ltb x sp) eqn:Hlt.
    + apply IH; [ exact Hx | | exact Hl' ]. split.
      * apply in_or_app. right. now left.
      * intros y Hy. apply in_app_or in Hy. destruct Hy as [Hy|[<-|[]]].
        -- destruct (Float64.ltb y x) eqn:Hyx; [ | reflexivity ].
           rewrite <- (Hle y Hy). symmetry.
           now apply (SFltb_trans y x sp).
        -- apply SFltb_irrefl.
    + apply IH; [ exact Hnz | | exact Hl' ]. split.
      * apply in_or_app. now left.
      * intros y Hy. apply in_app_or in Hy. destruct Hy as [Hy|[<-|[]]].
        -- now apply Hle.
        -- exact Hlt.
Qed.

Lemma seat_price_minimum_list (l : list float64) :
  l <> [] ->
  Forall (fun x => Float64.is_zero x = false) l ->
  is_minimum_of (fold_left seat_step l Float64.zero) l.
Proof.
  destruct l as [|x l]; [ congruence | ]. intros _ Hl.
  inversion Hl as [|? ? Hx Hl']; subst. simpl.
  rewrite seat_step_zero by reflexivity.
  apply (seat_fold_minimum l [x] x Hx); [ | exact Hl' ].
  split; [ now left | ]. intros y [<-|[]]. apply SFltb_irrefl.
Qed.

Lemma filter_all {A : Type} (f : A -> bool) (l : list A) :
  (forall x, In x l -> f x = true) -> filter f l = l.
Proof.
  induction l as [|x l IH]; intros H; simpl; [ reflexivity | ].
  rewrite (H x (or_introl eq_refl)). f_equal. apply IH.
  intros y Hy. apply H. now right.
Qed.

Lemma flat_map_none {A B : Type} (f : A -> list B) (l : list A) :
  (forall x, In x l -> f x = []) -> flat_map f l = [].
Proof.
  induction l as [|x l IH]; intros H; simpl; [ reflexivity | ].
  rewrite (H x (or_introl eq_refl)). apply IH.
  intros y Hy. apply H. now right.
Qed.

Section Validators.

Context {Reason : Type} {lib : GoLib Reason}.
Variable node : nearapi.Client Reason.
Variable account : string.

Local Abbreviation collector := (NewNodeRpcMetrics node account).

(** On current validators none of whose normalized stakes is zero, the seat
    price the loop computes is a least normalized stake. *)
Lemma seat_price_minimum (r : nearapi.Response Reason) :
  current_stakes r <> [] ->
  Forall (fun x => Float64.is_zero x = false) (current_stakes r) ->
  is_minimum_of (seat_price r) (current_stakes r).
Proof.
  unfold seat_price. apply seat_price_minimum_list.
Qed.

(** What a scrape sends for the seat-price descriptor once the first two
    queries have succeeded. *)
Lemma sent_for_seatPrice (sr r : nearapi.Response Reason) :
  status_answer collector = inl sr ->
  validators_answer collector = inl r ->
  sent_for (seatPriceDesc collector) (emitted collector)
  = [ gauge (seatPriceDesc collector) (seat_price r) [] ].
Proof.
  intros Hs Hv. rewrite emitted_eq. unfold collect_metrics. rewrite Hs, Hv.
  rewrite validators_metrics_split, !sent_for_app.
  rewrite (sent_for_none _ _ _ (in_status_metrics node account sr))
    by reflexivity.
  rewrite (sent_for_none _ _ _ (in_before_seat_price node account r))
    by reflexivity.
  rewrite (sent_for_none _ _ _ (in_after_seat_price node account r))
    by reflexivity.
  destruct (query_answer collector) as [d|err]; [ | reflexivity ].
  now rewrite (sent_for_none _ _ _ (in_delegators_metrics node account d)).
Qed.

(** C10.  Whenever the validator-set query has succeeded (the status query
    before it), a scrape sends exactly one metric for [near_seat_price], a
    sample and not a marker, whatever the current validators are and whatever
    the contract call answers.  Its value is 0 when there is no current
    validator, and equal to 0 when every normalized stake is. *)
Theorem C10_seat_price_always (sr r : nearapi.Response Reason) :
  status_answer collector = inl sr ->
  validators_answer collector = inl r ->
  sent_for (seatPriceDesc collector) (emitted collector)
  = [ gauge (seatPriceDesc collector) (seat_price r) [] ]
  /\ values_of (seatPriceDesc collector) (emitted collector) = [seat_price r]
  /\ (nearapi.Validators.CurrentValidators (nearapi.Validators r) = [] ->
      seat_price r = Float64.zero)
  /\ (Forall (fun x => Float64.eqb x Float64.zero = true) (current_stakes r) ->
      Float64.eqb (seat_price r) Float64.zero = true).
Proof.
  intros Hs Hv. split; [ | split; [ | split ] ].
  - now apply (sent_for_seatPrice sr r).
  - unfold values_of, samples_of. now rewrite (sent_for_seatPrice sr r).
  - intros Hnil. unfold seat_price, current_stakes. now rewrite Hnil.
  - intros Hz. rewrite eqb_zero. unfold seat_price.
    apply seat_fold_zeros; [ reflexivity | ].
    apply Forall_forall. intros x Hx. rewrite <- eqb_zero.
    rewrite Forall_forall in Hz. now apply Hz.
Qed.

(** C6.  If the three queries succeed and the account is the account of no
    current validator, next validator, proposal or kick-out, the scrape
    sends the status samples, the epoch start height, the seat price and the
    delegator samples, and nothing else: no sample and no marker for the
    validator stake, the four block and chunk counters, the next-validator
    stake, the proposal stake or the kick-out. *)
Theorem C6_no_match (sr r d : nearapi.Response Reason) :
  status_answer collector = inl sr ->
  validators_answer collector = inl r ->
  query_answer collector = inl d ->
  (forall v,
     In v (nearapi.Validators.CurrentValidators (nearapi.Validators r)) ->
     nearapi.CurrentValidator.AccountId v <> account) ->
  (forall v,
     In v (nearapi.Validators.NextValidators (nearapi.Validators r)) ->
     nearapi.NextValidator.AccountId v <> account) ->
  (forall v,
     In v (nearapi.Validators.CurrentProposals (nearapi.Validators r)) ->
     nearapi.CurrentProposal.AccountId v <> account) ->
  (forall v,
     In v (nearapi.Validators.PrevEpochKickOut (nearapi.Validators r)) ->
     nearapi.PrevEpochKickOut.AccountId v <> account) ->
  emitted collector
  = status_metrics collector sr
    ++ [ gauge (epochStartHeightDesc collector)
           (Float64.of_Z
              (nearapi.Validators.EpochStartHeight (nearapi.Validators r)))
           [];
         gauge (seatPriceDesc collector) (seat_price r) [] ]
    ++ delegators_metrics collector d
  /\ forall dsc,
       In dsc
         [ currentValidatorStakeDesc collector;
           epochBlockProducedDesc collector;
           epochBlockExpectedDesc collector;
           epochChunksProducedDesc collector;
           epochChunksExpectedDesc collector;
           nextValidatorStakeDesc collector;
           currentProposalsDesc collector;
           prevEpochKickoutDesc collector ] ->
       sent_for dsc (emitted collector) = [].
Proof.
  intros Hs Hv Hq Hcur Hnext Hprop Hkick.
  assert (E : emitted collector
              = status_metrics collector sr
                ++ [ gauge (epochStartHeightDesc collector)
                       (Float64.of_Z
                          (nearapi.Validators.EpochStartHeight
                             (nearapi.Validators r))) [];
                     gauge (seatPriceDesc collector) (seat_price r) [] ]
                ++ delegators_metrics collector d).
  { rewrite emitted_eq. unfold collect_metrics. rewrite Hs, Hv, Hq.
    f_equal. unfold validators_metrics. cbv zeta.
    rewrite (flat_map_none (current_validator_metrics collector)).
    2:{ intros v Hin. unfold current_validator_metrics.
        change (accountId collector) with account.
        now rewrite (proj2 (String.eqb_neq _ _) (Hcur v Hin)). }
    rewrite (flat_map_none (next_validator_metrics collector)).
    2:{ intros v Hin. unfold next_validator_metrics.
        change (accountId collector) with account.
        now rewrite (proj2 (String.eqb_neq _ _) (Hnext v Hin)). }
    rewrite (flat_map_none (current_proposal_metrics collector)).
    2:{ intros v Hin. unfold current_proposal_metrics.
        change (accountId collector) with account.
        now rewrite (proj2 (String.eqb_neq _ _) (Hprop v Hin)). }
    rewrite (flat_map_none (kickout_metrics collector)).
    2:{ intros v Hin. unfold kickout_metrics.
        change (accountId collector) with account.
        now rewrite (proj2 (String.eqb_neq _ _) (Hkick v Hin)). }
    reflexivity. }
  split; [ exact E | ].
  intros dsc Hin. rewrite E, !sent_for_app.
  cbn [In] in Hin.
  repeat (destruct Hin as [<-|Hin];
          [ rewrite (sent_for_none _ _ _
                       (in_delegators_metrics node account d))
              by reflexivity;
            reflexivity | ]).
  destruct Hin.
Qed.

(** C8, as the code has it.  If the three queries succeed, the scrape sends
    for the delegator stake exactly one sample for each record that
    [Unmarshal] left in the destination slice, whether or not it returned an
    error: none when the slice is left empty.  No invalid marker is sent and
    [Collect] returns normally. *)
Theorem C8_decode_failure (sr r d : nearapi.Response Reason) :
  status_answer collector = inl sr ->
  validators_answer collector = inl r ->
  query_answer collector = inl d ->
  sent_for (delegatorStakeDesc collector) (emitted collector)
  = map (delegator_metric collector) (decoded_delegators d)
  /\ (decoded_delegators d = [] ->
      sent_for (delegatorStakeDesc collector) (emitted collector) = [])
  /\ Forall (fun m => is_invalid m = false) (emitted collector)
  /\ completes collector.
Proof.
  intros Hs Hv Hq.
  assert (E : sent_for (delegatorStakeDesc collector) (emitted collector)
              = map (delegator_metric collector) (decoded_delegators d)).
  { rewrite emitted_eq. unfold collect_metrics. rewrite Hs, Hv, Hq.
    rewrite !sent_for_app.
    rewrite (sent_for_none _ _ _ (in_status_metrics node account sr))
      by reflexivity.
    rewrite (sent_for_none _ _ _ (in_validators_metrics node account r))
      by reflexivity.
    cbn [app]. unfold sent_for. apply filter_all.
    intros m Hm. apply in_delegators_metrics in Hm.
    destruct Hm as [_ [<-|[]]]. reflexivity. }
  split; [ exact E | ].
  split; [ intros Hnil; now rewrite E, Hnil | ].
  split; [ | apply scrape_completes ].
  rewrite emitted_eq. unfold collect_metrics. rewrite Hs, Hv, Hq.
  apply Forall_app. split; [ apply status_metrics_samples | ].
  apply Forall_app. split; [ apply validators_metrics_samples | ].
  apply delegators_metrics_samples.
Qed.

End Validators.

(** ** The seat price on a list with a zero stake *)

(** C1, at three current validators whose stakes normalize to 20, 0 and 30.
    The loop takes 20, lowers it to 0 at the second validator, and at the
    third finds its variable equal to 0 and takes 30 afresh: the scrape sends
    30 as the seat price, whereas the least normalized stake is 0. *)
Theorem C1_seat_price_zero_stake :
  status_answer Examples.zero_stake = inl Examples.status_response
  /\ validators_answer Examples.zero_stake
     = inl Examples.zero_stake_validators
  /\ current_stakes Examples.zero_stake_validators
     = [ Float64.of_Z 20; Float64.zero; Float64.of_Z 30 ]
  /\ values_of (seatPriceDesc Examples.zero_stake)
       (emitted Examples.zero_stake)
     = [ Float64.of_Z 30 ]
  /\ Float64.ltb Float64.zero (Float64.of_Z 30) = true
  /\ is_minimum_of Float64.zero
       (current_stakes Examples.zero_stake_validators)
  /\ ~ is_minimum_of (Float64.of_Z 30)
         (current_stakes Examples.zero_stake_validators).
Proof.
  assert (Hst : current_stakes Examples.zero_stake_validators
                = [ Float64.of_Z 20; Float64.zero; Float64.of_Z 30 ])
    by (vm_compute; reflexivity).
  split; [ reflexivity | ].
  split; [ reflexivity | ].
  split; [ exact Hst | ].
  split; [ vm_compute; reflexivity | ].
  split; [ vm_compute; reflexivity | ].
  rewrite Hst. split.
  - split; [ right; now left | ].
    intros y [<-|[<-|[<-|[]]]]; vm_compute; reflexivity.
  - intros [_ H]. specialize (H Float64.zero (or_intror (or_introl eq_refl))).
    vm_compute in H. discriminate.
Qed.

(** The two stakes of 26 digits keep their first seven digits and normalize
    to 30 and 20; the seat price sent is 20. *)
Example seat_price_two_validators :
  current_stakes Examples.two_validators
  = [ Float64.of_Z 30; Float64.of_Z 20 ]
  /\ values_of (seatPriceDesc Examples.all_up) (emitted Examples.all_up)
     = [ Float64.of_Z 20 ].
Proof.
  split; vm_compute; reflexivity.
Qed.

(** ** A payload that does not decode and still yields a sample *)

(** C8 fails at the payload [[{"account_id":"d.near","staked_balance":5}]]:
    the staked balance is a number where a string is required, so
    [Unmarshal] returns an error, yet it has stored the record with the
    account and an empty balance, and the scrape sends a delegator-stake
    sample of value 0 for ["d.near"]. *)
Lemma C8_mistyped_payload_counterexample :
  status_answer Examples.mistyped = inl Examples.status_response
  /\ validators_answer Examples.mistyped = inl Examples.two_validators
  /\ query_answer Examples.mistyped = inl Examples.mistyped_delegator
  /\ decode_error Examples.mistyped_delegator
     = Some (json.UnmarshalTypeError (json.Number "5") "string")
  /\ sent_for (delegatorStakeDesc Examples.mistyped)
       (emitted Examples.mistyped)
     = [ gauge (delegatorStakeDesc Examples.mistyped) Float64.zero
           ["d.near"] ]
  /\ ~ (decode_error Examples.mistyped_delegator <> None ->
        sent_for (delegatorStakeDesc Examples.mistyped)
          (emitted Examples.mistyped) = []).
Proof.
  assert (Hsent : sent_for (delegatorStakeDesc Examples.mistyped)
                    (emitted Examples.mistyped)
                  = [ gauge (delegatorStakeDesc Examples.mistyped)
                        Float64.zero ["d.near"] ])
    by (vm_compute; reflexivity).
  assert (Herr : decode_error Examples.mistyped_delegator
                 = Some (json.UnmarshalTypeError (json.Number "5") "string"))
    by (vm_compute; reflexivity).
  split; [ reflexivity | ].
  split; [ reflexivity | ].
  split; [ reflexivity | ].
  split; [ exact Herr | ].
  split; [ exact Hsent | ].
  intros H. rewrite Hsent in H.
  assert (D : decode_error Examples.mistyped_delegator <> None)
    by (rewrite Herr; discriminate).
  specialize (H D). discriminate.
Qed.

(** ** The theorems at the example nodes *)

Lemma C4_status_failure_witness :
  status_answer Examples.status_down = inr Examples.unreachable
  /\ emitted Examples.status_down
     = [ invalidMetric (versionBuildDesc Examples.status_down)
           Examples.unreachable ]
  /\ requested Examples.status_down = [status_request].
Proof.
  split; [ reflexivity | ].
  pose proof (C4_status_failure (lib := golib)
                (Examples.node (inr Examples.unreachable)
                   (inl Examples.two_validators)
                   (inl Examples.one_delegator))
                "a.near" Examples.unreachable eq_refl) as H.
  exact (conj (proj1 H) (proj1 (proj2 H))).
Defined.

Lemma C2_validators_failure_witness :
  status_answer Examples.validators_down = inl Examples.status_response
  /\ validators_answer Examples.validators_down = inr Examples.unreachable
  /\ emitted Examples.validators_down
     = status_metrics Examples.validators_down Examples.status_response
       ++ validators_failed_metrics Examples.validators_down
            Examples.unreachable
  /\ List.length (emitted Examples.validators_down) = 16%nat.
Proof.
  split; [ reflexivity | ].
  split; [ reflexivity | ].
  pose proof (C2_validators_failure (lib := golib)
                (Examples.node (inl Examples.status_response)
                   (inr Examples.unreachable)
                   (inl Examples.one_delegator))
                "a.near" Examples.status_response Examples.unreachable
                eq_refl eq_refl) as H.
  split; [ exact (proj1 H) | ].
  unfold Examples.validators_down. rewrite (proj1 H). reflexivity.
Defined.

Lemma C9_query_failure_witness :
  status_answer Examples.query_down = inl Examples.status_response
  /\ validators_answer Examples.query_down = inl Examples.two_validators
  /\ query_answer Examples.query_down = inr Examples.unreachable
  /\ filter is_invalid (emitted Examples.query_down)
     = [ invalidMetric (delegatorStakeDesc Examples.query_down)
           Examples.unreachable ].
Proof.
  split; [ reflexivity | ].
  split; [ reflexivity | ].
  split; [ reflexivity | ].
  pose proof (C9_query_failure (lib := golib)
                (Examples.node (inl Examples.status_response)
                   (inl Examples.two_validators)
                   (inr Examples.unreachable))
                "a.near" Examples.status_response Examples.two_validators
                Examples.unreachable eq_refl eq_refl eq_refl) as H.
  exact (proj1 (proj2 (proj2 H))).
Defined.

Lemma C3_normalization_witness :
  (len "1234567890123456789" <= 19)%nat
  /\ GetStakeFromString (lib := golib) "1234567890123456789" empty_world
     = (Done Float64.zero, empty_world)
  /\ (19 < len "30000000000000000000000000")%nat
  /\ ParseFloat
       (slice "30000000000000000000000000" 0
          (len "30000000000000000000000000" - 19)) 64
     = (Float64.of_Z 3000000, None)
  /\ GetStakeFromString (lib := golib) "30000000000000000000000000"
       empty_world
     = (Done (Float64.div (Float64.of_Z 3000000) (Float64.of_Z 100000)),
        empty_world)
  /\ ParseFloat "12" 64 = (Float64.of_Z 12, None)
  /\ GetStakeFromString (lib := golib) "123456789012345678901" empty_world
     = (Done (S754_finite false 8854437155380585 (-66)), empty_world).
Proof.
  assert (H19 : (len "1234567890123456789" <= 19)%nat) by (simpl; lia).
  assert (H26 : (19 < len "30000000000000000000000000")%nat)
    by (simpl; lia).
  split; [ exact H19 | ].
  split.
  { exact (proj1 (C3_normalization (lib := golib) "1234567890123456789")
             H19 empty_world). }
  split; [ exact H26 | ].
  split; [ reflexivity | ].
  split.
  { exact (proj1 (proj2 (C3_normalization (lib := golib)
                           "30000000000000000000000000"))
             (Float64.of_Z 3000000) H26 eq_refl empty_world). }
  split; [ reflexivity | ].
  exact (proj1 (proj2 (proj2 (C3_normalization (lib := golib) "")) eq_refl)
           empty_world).
Defined.

Lemma C7_parse_failure_witness :
  (19 < len "zz0000000000000000000")%nat
  /\ ParseFloat
       (slice "zz0000000000000000000" 0 (len "zz0000000000000000000" - 19))
       64
     = (Float64.zero, Some (strconv.NumError "zz" "invalid syntax"))
  /\ GetStakeFromString (lib := golib) "zz0000000000000000000" empty_world
     = (Done Float64.zero,
        {| ch := []; rpc := [];
           stdout := [ Error (strconv.NumError "zz" "invalid syntax") ] |})
  /\ completes Examples.all_up.
Proof.
  assert (H21 : (19 < len "zz0000000000000000000")%nat) by (simpl; lia).
  split; [ exact H21 | ].
  split; [ reflexivity | ].
  pose proof (C7_parse_failure (lib := golib) "zz0000000000000000000"
                Float64.zero (strconv.NumError "zz" "invalid syntax")
                H21 eq_refl) as H.
  split.
  - exact (proj1 H empty_world).
  - exact (proj1 (proj2 (proj2 H) _ "a.near")).
Defined.

Lemma C5_version_build_witness :
  status_answer Examples.all_up = inl Examples.status_response
  /\ samples_of (versionBuildDesc Examples.all_up) (emitted Examples.all_up)
     = [ gauge (versionBuildDesc Examples.all_up)
           (Float64.of_Z (fnv1a_32 (bytes "foobar")))
           [ "1.19.0"; "foobar" ] ]
  /\ fnv1a_32 (bytes "foobar") = 3214735720.
Proof.
  split; [ reflexivity | ].
  split; [ | reflexivity ].
  exact (proj1 (C5_version_build (lib := golib)
                  (Examples.node (inl Examples.status_response)
                     (inl Examples.two_validators)
                     (inl Examples.one_delegator))
                  "a.near" Examples.status_response eq_refl)).
Defined.

Lemma C10_seat_price_always_witness :
  status_answer Examples.all_up = inl Examples.status_response
  /\ validators_answer Examples.all_up = inl Examples.two_validators
  /\ sent_for (seatPriceDesc Examples.all_up) (emitted Examples.all_up)
     = [ gauge (seatPriceDesc Examples.all_up)
           (seat_price Examples.two_validators) [] ]
  /\ seat_price Examples.two_validators = Float64.of_Z 20.
Proof.
  split; [ reflexivity | ].
  split; [ reflexivity | ].
  split; [ | vm_compute; reflexivity ].
  exact (proj1 (C10_seat_price_always (lib := golib)
                  (Examples.node (inl Examples.status_response)
                     (inl Examples.two_validators)
                     (inl Examples.one_delegator))
                  "a.near" Examples.status_response Examples.two_validators
                  eq_refl eq_refl)).
Defined.

Lemma stranger_matches_nothing :
  (forall v,
     In v (nearapi.Validators.CurrentValidators
             (nearapi.Validators Examples.two_validators)) ->
     nearapi.CurrentValidator.AccountId v <> "x.near")
  /\ (forall v,
        In v (nearapi.Validators.NextValidators
                (nearapi.Validators Examples.two_validators)) ->
        nearapi.NextValidator.AccountId v <> "x.near")
  /\ (forall v,
        In v (nearapi.Validators.CurrentProposals
                (nearapi.Validators Examples.two_validators)) ->
        nearapi.CurrentProposal.AccountId v <> "x.near")
  /\ (forall v,
        In v (nearapi.Validators.PrevEpochKickOut
                (nearapi.Validators Examples.two_validators)) ->
        nearapi.PrevEpochKickOut.AccountId v <> "x.near").
Proof.
  repeat split; intros v Hv; simpl in Hv;
    repeat (destruct Hv as [<-|Hv]; [ discriminate | ]); destruct Hv.
Defined.

Lemma C6_no_match_witness :
  status_answer Examples.stranger = inl Examples.status_response
  /\ validators_answer Examples.stranger = inl Examples.two_validators
  /\ query_answer Examples.stranger = inl Examples.one_delegator
  /\ emitted Examples.stranger
     = status_metrics Examples.stranger Examples.status_response
       ++ [ gauge (epochStartHeightDesc Examples.stranger)
              (Float64.of_Z 41990000) [];
            gauge (seatPriceDesc Examples.stranger)
              (seat_price Examples.two_validators) [] ]
       ++ delegators_metrics Examples.stranger Examples.one_delegator.
Proof.
  split; [ reflexivity | ].
  split; [ reflexivity | ].
  split; [ reflexivity | ].
  destruct stranger_matches_nothing as (H1 & H2 & H3 & H4).
  exact (proj1 (C6_no_match (lib := golib)
                  (Examples.node (inl Examples.status_response)
                     (inl Examples.two_validators)
                     (inl Examples.one_delegator))
                  "x.near" Examples.status_response Examples.two_validators
                  Examples.one_delegator eq_refl eq_refl eq_refl
                  H1 H2 H3 H4)).
Defined.

Lemma C8_decode_failure_witness :
  status_answer Examples.truncated = inl Examples.status_response
  /\ validators_answer Examples.truncated = inl Examples.two_validators
  /\ query_answer Examples.truncated = inl Examples.truncated_delegators
  /\ decode_error Examples.truncated_delegators = Some json.SyntaxError
  /\ decoded_delegators Examples.truncated_delegators = []
  /\ sent_for (delegatorStakeDesc Examples.truncated)
       (emitted Examples.truncated) = []
  /\ completes Examples.truncated.
Proof.
  split; [ reflexivity | ].
  split; [ reflexivity | ].
  split; [ reflexivity | ].
  split; [ vm_compute; reflexivity | ].
  assert (Hnil : decoded_delegators Examples.truncated_delegators = [])
    by (vm_compute; reflexivity).
  split; [ exact Hnil | ].
  pose proof (C8_decode_failure (lib := golib)
                (Examples.node (inl Examples.status_response)
                   (inl Examples.two_validators)
                   (inl Examples.truncated_delegators))
                "a.near" Examples.status_response Examples.two_validators
                Examples.truncated_delegators eq_refl eq_refl eq_refl) as H.
  split.
  - exact (proj1 (proj2 H) Hnil).
  - exact (proj2 (proj2 (proj2 H))).
Defined.

(** * Beyond the failure cases: what a scrape sends and for whom *)

Section Announced.

Context {Reason : Type} {lib : GoLib Reason}.
Variable node : nearapi.Client Reason.
Variable account : string.

Local Abbreviation collector := (NewNodeRpcMetrics node account).

Lemma sample_for_incl (ds ds' : list Desc) (m : Metric) :
  sample_for ds m -> incl ds ds' -> In (Desc_of m) ds'.
Proof.
  intros [_ H] Hi. now apply Hi.
Qed.

(** X1.  [Describe] announces fourteen descriptors with pairwise distinct
    names, and whatever the node answers, every metric [Collect] sends, sample
    or marker, is built for one of them. *)
Theorem X1_emitted_are_described :
  List.length (Describe collector) = 14%nat
  /\ NoDup (map fqName (Describe collector))
  /\ forall m, In m (emitted collector) -> In (Desc_of m) (Describe collector).
Proof.
  split; [ reflexivity | ].
  split.
  { cbn. repeat (constructor; [ cbn; intuition discriminate | ]).
    constructor. }
  intros m. rewrite emitted_eq. unfold collect_metrics.
  destruct (status_answer collector) as [sr|err].
  - rewrite in_app_iff. intros [Hm|Hm].
    { apply (sample_for_incl _ _ _ (in_status_metrics node account sr m Hm)).
      intros d Hd. cbn in Hd |- *. intuition. }
    destruct (validators_answer collector) as [r|err].
    + rewrite in_app_iff in Hm. destruct Hm as [Hm|Hm].
      { apply (sample_for_incl _ _ _
                 (in_validators_metrics node account r m Hm)).
        intros d Hd. cbn in Hd |- *. intuition. }
      destruct (query_answer collector) as [d|err].
      * apply (sample_for_incl _ _ _
                 (in_delegators_metrics node account d m Hm)).
        intros d' Hd. cbn in Hd |- *. intuition.
      * destruct Hm as [<-|[]]. cbn. intuition.
    + unfold validators_failed_metrics in Hm. apply in_map_iff in Hm.
      destruct Hm as (d & <- & Hd). cbn in Hd |- *. intuition.
  - intros [<-|[]]. cbn. intuition.
Qed.

Lemma well_labelled_flat_map {A : Type} (f : A -> list Metric) (l : list A) :
  (forall v m, In m (f v) -> well_labelled m) ->
  forall m, In m (flat_map f l) -> well_labelled m.
Proof.
  intros H m Hm. apply in_flat_map in Hm. destruct Hm as (v & _ & Hm).
  now apply (H v).
Qed.

(** Every element of a list written out is well labelled. *)
Ltac labelled_cases H :=
  cbn in H;
  repeat (destruct H as [<-|H]; [ split; reflexivity | ]);
  destruct H.

Lemma well_labelled_validators (r : nearapi.Response Reason) (m : Metric) :
  In m (validators_metrics collector r) -> well_labelled m.
Proof.
  unfold validators_metrics. cbv zeta. rewrite !in_app_iff.
  intros [H|[H|[H|[H|[H|H]]]]].
  - labelled_cases H.
  - revert m H. apply well_labelled_flat_map. intros v m H.
    unfold current_validator_metrics in H.
    destruct (String.eqb _ _); labelled_cases H.
  - labelled_cases H.
  - revert m H. apply well_labelled_flat_map. intros v m H.
    unfold next_validator_metrics in H.
    destruct (String.eqb _ _); labelled_cases H.
  - revert m H. apply well_labelled_flat_map. intros v m H.
    unfold current_proposal_metrics in H.
    destruct (String.eqb _ _); labelled_cases H.
  - revert m H. apply well_labelled_flat_map. intros v m H.
    unfold kickout_metrics in H.
    destruct (String.eqb _ _); labelled_cases H.
Qed.

(** X2.  Whatever the node answers, every sample [Collect] sends is a gauge
    and carries exactly as many label values as its descriptor declares
    label names: two for the version/build, one for a delegator stake and for
    a kick-out, none otherwise.  So no [MustNewConstMetric] panics. *)
Theorem X2_samples_well_labelled :
  (forall m, In m (emitted collector) -> well_labelled m)
  /\ completes collector.
Proof.
  split; [ | apply scrape_completes ].
  intros m. rewrite emitted_eq. unfold collect_metrics.
  destruct (status_answer collector) as [sr|err].
  - rewrite in_app_iff. intros [Hm|Hm].
    { unfold status_metrics in Hm. labelled_cases Hm. }
    destruct (validators_answer collector) as [r|err].
    + rewrite in_app_iff in Hm. destruct Hm as [Hm|Hm].
      { now apply (well_labelled_validators r). }
      destruct (query_answer collector) as [d|err].
      * unfold delegators_metrics in Hm. apply in_map_iff in Hm.
        destruct Hm as (a & <- & _). split; reflexivity.
      * destruct Hm as [<-|[]]. exact I.
    + unfold validators_failed_metrics in Hm. apply in_map_iff in Hm.
      destruct Hm as (d & <- & _). exact I.
  - intros [<-|[]]. exact I.
Qed.

End Announced.

Section SentFor.

Context {Reason : Type} {lib : GoLib Reason}.
Variable node : nearapi.Client Reason.
Variable account : string.

Local Abbreviation collector := (NewNodeRpcMetrics node account).

(** What step 3 sends, by the answer to the contract call. *)
Local Abbreviation step3 :=
  (match query_answer collector with
   | inr err => [invalidMetric (delegatorStakeDesc collector) err]
   | inl d => delegators_metrics collector d
   end).

Lemma sent_for_step3_none (d : Desc) :
  same_desc (delegatorStakeDesc collector) d = false ->
  sent_for d step3 = [].
Proof.
  intros H. destruct (query_answer collector) as [q|err].
  - apply (sent_for_none d [delegatorStakeDesc collector]).
    + apply in_delegators_metrics.
    + cbn [forallb]. now rewrite H.
  - unfold sent_for. cbn [filter Desc_of]. now rewrite H.
Qed.

Lemma sent_for_status_none (d : Desc) (sr : nearapi.Response Reason) :
  forallb (fun d' => negb (same_desc d' d))
    [ syncingDesc collector; blockNumberDesc collector;
      versionBuildDesc collector ] = true ->
  sent_for d (status_metrics collector sr) = [].
Proof.
  apply sent_for_none, in_status_metrics.
Qed.

(** The metrics of step 2 sent for a descriptor, part by part. *)
Lemma sent_for_validators_metrics (d : Desc) (r : nearapi.Response Reason) :
  sent_for d (validators_metrics collector r)
  = sent_for d
      [ gauge (epochStartHeightDesc collector)
          (Float64.of_Z
             (nearapi.Validators.EpochStartHeight (nearapi.Validators r)))
          [] ]
    ++ sent_for d
         (flat_map (current_validator_metrics collector)
            (nearapi.Validators.CurrentValidators (nearapi.Validators r)))
    ++ sent_for d [ gauge (seatPriceDesc collector) (seat_price r) [] ]
    ++ sent_for d
         (flat_map (next_validator_metrics collector)
            (nearapi.Validators.NextValidators (nearapi.Validators r)))
    ++ sent_for d
         (flat_map (current_proposal_metrics collector)
            (nearapi.Validators.CurrentProposals (nearapi.Validators r)))
    ++ sent_for d
         (flat_map (kickout_metrics collector)
            (nearapi.Validators.PrevEpochKickOut (nearapi.Validators r))).
Proof.
  unfold validators_metrics. cbv zeta. now rewrite !sent_for_app.
Qed.

Lemma sent_for_current_none (d : Desc) (l : list nearapi.CurrentValidator.t) :
  forallb (fun d' => negb (same_desc d' d))
    [ currentValidatorStakeDesc collector;
      epochBlockProducedDesc collector; epochBlockExpectedDesc collector;
      epochChunksProducedDesc collector; epochChunksExpectedDesc collector ]
  = true ->
  sent_for d (flat_map (current_validator_metrics collector) l) = [].
Proof.
  apply sent_for_none. intros m. apply in_current_validator_metrics.
Qed.

Lemma sent_for_next_none (d : Desc) (l : list nearapi.NextValidator.t) :
  same_desc (nextValidatorStakeDesc collector) d = false ->
  sent_for d (flat_map (next_validator_metrics collector) l) = [].
Proof.
  intros H. apply (sent_for_none d [nextValidatorStakeDesc collector]).
  - intros m. apply in_next_validator_metrics.
  - cbn [forallb]. now rewrite H.
Qed.

Lemma sent_for_proposal_none (d : Desc) (l : list nearapi.CurrentProposal.t) :
  same_desc (currentProposalsDesc collector) d = false ->
  sent_for d (flat_map (current_proposal_metrics collector) l) = [].
Proof.
  intros H. apply (sent_for_none d [currentProposalsDesc collector]).
  - intros m. apply in_current_proposal_metrics.
  - cbn [forallb]. now rewrite H.
Qed.

Lemma sent_for_kickout_none (d : Desc)
    (l : list (nearapi.PrevEpochKickOut.t Reason)) :
  same_desc (prevEpochKickoutDesc collector) d = false ->
  sent_for d (flat_map (kickout_metrics collector) l) = [].
Proof.
  intros H. apply (sent_for_none d [prevEpochKickoutDesc collector]).
  - intros m. apply in_kickout_metrics.
  - cbn [forallb]. now rewrite H.
Qed.

(** The list sent for a descriptor over a loop that sends [g v] for it at
    each entry [v] passing the test [own], and nothing for it elsewhere. *)
Lemma sent_for_loop {A : Type} (d : Desc) (f : A -> list Metric)
    (own : A -> bool) (g : A -> Metric) (l : list A) :
  (forall v, sent_for d (f v) = if own v then [g v] else []) ->
  sent_for d (flat_map f l) = map g (filter own l).
Proof.
  intros H. induction l as [|v l IH]; [ reflexivity | ].
  cbn [flat_map filter]. rewrite sent_for_app, H, IH.
  now destruct (own v).
Qed.

End SentFor.

Section StatusSamples.

Context {Reason : Type} {lib : GoLib Reason}.
Variable node : nearapi.Client Reason.
Variable account : string.

Local Abbreviation collector := (NewNodeRpcMetrics node account).

(** What a scrape sends for the block-number descriptor once the status
    query has succeeded. *)
Lemma sent_for_blockNumber (sr : nearapi.Response Reason) :
  status_answer collector = inl sr ->
  sent_for (blockNumberDesc collector) (emitted collector)
  = gauge (blockNumberDesc collector)
      (Float64.of_Z
         (nearapi.SyncInfo.LatestBlockHeight
            (nearapi.Status.SyncInfo (nearapi.Status sr)))) []
    :: match validators_answer collector with
       | inr err => [invalidMetric (blockNumberDesc collector) err]
       | inl _ => []
       end.
Proof.
  intros Hs. rewrite emitted_eq. unfold collect_metrics. rewrite Hs.
  rewrite !sent_for_app.
  change (sent_for (blockNumberDesc collector) (status_metrics collector sr))
    with [ gauge (blockNumberDesc collector)
             (Float64.of_Z
                (nearapi.SyncInfo.LatestBlockHeight
                   (nearapi.Status.SyncInfo (nearapi.Status sr)))) [] ].
  cbn [app]. f_equal.
  destruct (validators_answer collector) as [r|err]; [ | reflexivity ].
  rewrite sent_for_app.
  rewrite (sent_for_none _ _ _ (in_validators_metrics node account r))
    by reflexivity.
  now rewrite sent_for_step3_none.
Qed.

(** X3.  Once the status query has succeeded, whatever the two later queries
    answer, the scrape sends one sample for the sync state, 1 when the node
    is syncing and 0 when it is not, and one for the block number, the
    latest block height.  When the validator-set query then fails, an
    invalid marker follows each of the two samples: the same descriptor is
    reported both as a value and as invalid in one scrape. *)
Theorem X3_status_samples (sr : nearapi.Response Reason) :
  status_answer collector = inl sr ->
  sent_for (syncingDesc collector) (emitted collector)
  = gauge (syncingDesc collector)
      (if nearapi.SyncInfo.Syncing
            (nearapi.Status.SyncInfo (nearapi.Status sr))
       then S754_finite false 4503599627370496 (-52)
       else S754_zero false) []
    :: match validators_answer collector with
       | inr err => [invalidMetric (syncingDesc collector) err]
       | inl _ => []
       end
  /\ sent_for (blockNumberDesc collector) (emitted collector)
     = gauge (blockNumberDesc collector)
         (Float64.of_Z
            (nearapi.SyncInfo.LatestBlockHeight
               (nearapi.Status.SyncInfo (nearapi.Status sr)))) []
       :: match validators_answer collector with
          | inr err => [invalidMetric (blockNumberDesc collector) err]
          | inl _ => []
          end.
Proof.
  intros Hs. split; [ | exact (sent_for_blockNumber sr Hs) ].
  rewrite emitted_eq. unfold collect_metrics. rewrite Hs.
  rewrite !sent_for_app.
  replace (sent_for (syncingDesc collector) (status_metrics collector sr))
    with [ gauge (syncingDesc collector)
             (if nearapi.SyncInfo.Syncing
                   (nearapi.Status.SyncInfo (nearapi.Status sr))
              then S754_finite false 4503599627370496 (-52)
              else S754_zero false) [] ]
    by (unfold status_metrics;
        destruct (nearapi.SyncInfo.Syncing _); reflexivity).
  cbn [app]. f_equal.
  destruct (validators_answer collector) as [r|err]; [ | reflexivity ].
  rewrite sent_for_app.
  rewrite (sent_for_none _ _ _ (in_validators_metrics node account r))
    by reflexivity.
  now rewrite sent_for_step3_none.
Qed.

End StatusSamples.

Section OwnEntries.

Context {Reason : Type} {lib : GoLib Reason}.
Variable node : nearapi.Client Reason.
Variable account : string.

Local Abbreviation collector := (NewNodeRpcMetrics node account).

(** What a successful step 2 and any step 3 send for a descriptor that is
    neither a status descriptor nor the delegator one. *)
Lemma sent_for_step2 (d : Desc) (sr r : nearapi.Response Reason) :
  status_answer collector = inl sr ->
  validators_answer collector = inl r ->
  forallb (fun d' => negb (same_desc d' d))
    [ syncingDesc collector; blockNumberDesc collector;
      versionBuildDesc collector ] = true ->
  same_desc (delegatorStakeDesc collector) d = false ->
  sent_for d (emitted collector) = sent_for d (validators_metrics collector r).
Proof.
  intros Hs Hv Hst Hdel. rewrite emitted_eq. unfold collect_metrics.
  rewrite Hs, Hv, !sent_for_app.
  rewrite (sent_for_status_none node account d sr Hst).
  rewrite (sent_for_step3_none node account d Hdel).
  now rewrite app_nil_r.
Qed.

Lemma sent_for_other (d : Desc) (m : Metric) :
  same_desc (Desc_of m) d = false -> sent_for d [m] = [].
Proof.
  intros H. unfold sent_for. cbn [filter]. now rewrite H.
Qed.

(** The five samples of a current validator, one descriptor at a time. *)
Ltac current_part d g :=
  rewrite (sent_for_step2 d _ _ ltac:(eassumption) ltac:(eassumption))
    by reflexivity;
  rewrite sent_for_validators_metrics;
  rewrite (sent_for_loop d (current_validator_metrics collector)
             (fun v =>
                String.eqb (nearapi.CurrentValidator.AccountId v) account)
             g)
    by (intros v; unfold current_validator_metrics;
        change (accountId collector) with account;
        destruct (String.eqb _ _); reflexivity);
  rewrite sent_for_next_none by reflexivity;
  rewrite sent_for_proposal_none by reflexivity;
  rewrite sent_for_kickout_none by reflexivity;
  rewrite !sent_for_other by reflexivity;
  cbn [app]; now rewrite app_nil_r.

(** X4.  When the first two queries succeed, the scrape sends the validator
    stake and the four block and chunk counters once for every current
    validator whose account is the collector's, in list order, with that
    entry's normalized stake and counters: nothing when no entry matches,
    and one set of samples per entry when several do. *)
Theorem X4_current_validator_samples (sr r : nearapi.Response Reason) :
  status_answer collector = inl sr ->
  validators_answer collector = inl r ->
  sent_for (currentValidatorStakeDesc collector) (emitted collector)
  = map (fun v =>
           gauge (currentValidatorStakeDesc collector)
             (stake_value (nearapi.CurrentValidator.Stake v)) [])
      (own_current account r)
  /\ sent_for (epochBlockProducedDesc collector) (emitted collector)
     = map (fun v =>
              gauge (epochBlockProducedDesc collector)
                (Float64.of_Z (nearapi.CurrentValidator.NumProducedBlocks v))
                [])
         (own_current account r)
  /\ sent_for (epochBlockExpectedDesc collector) (emitted collector)
     = map (fun v =>
              gauge (epochBlockExpectedDesc collector)
                (Float64.of_Z (nearapi.CurrentValidator.NumExpectedBlocks v))
                [])
         (own_current account r)
  /\ sent_for (epochChunksProducedDesc collector) (emitted collector)
     = map (fun v =>
              gauge (epochChunksProducedDesc collector)
                (Float64.of_Z (nearapi.CurrentValidator.NumProducedChunks v))
                [])
         (own_current account r)
  /\ sent_for (epochChunksExpectedDesc collector) (emitted collector)
     = map (fun v =>
              gauge (epochChunksExpectedDesc collector)
                (Float64.of_Z (nearapi.CurrentValidator.NumExpectedChunks v))
                [])
         (own_current account r).
Proof.
  intros Hs Hv. unfold own_current.
  split; [ | split; [ | split; [ | split ] ] ].
  - current_part (currentValidatorStakeDesc collector)
      (fun v =>
         gauge (currentValidatorStakeDesc collector)
           (stake_value (nearapi.CurrentValidator.Stake v)) []).
  - current_part (epochBlockProducedDesc collector)
      (fun v =>
         gauge (epochBlockProducedDesc collector)
           (Float64.of_Z (nearapi.CurrentValidator.NumProducedBlocks v)) []).
  - current_part (epochBlockExpectedDesc collector)
      (fun v =>
         gauge (epochBlockExpectedDesc collector)
           (Float64.of_Z (nearapi.CurrentValidator.NumExpectedBlocks v)) []).
  - current_part (epochChunksProducedDesc collector)
      (fun v =>
         gauge (epochChunksProducedDesc collector)
           (Float64.of_Z (nearapi.CurrentValidator.NumProducedChunks v)) []).
  - current_part (epochChunksExpectedDesc collector)
      (fun v =>
         gauge (epochChunksExpectedDesc collector)
           (Float64.of_Z (nearapi.CurrentValidator.NumExpectedChunks v)) []).
Qed.

(** X5.  When the first two queries succeed, the scrape sends the
    next-validator stake once for every next validator whose account is the
    collector's, and the proposal stake once for every current proposal
    whose account is, each with the normalized stake of its entry and in list
    order. *)
Theorem X5_next_and_proposal_samples (sr r : nearapi.Response Reason) :
  status_answer collector = inl sr ->
  validators_answer collector = inl r ->
  sent_for (nextValidatorStakeDesc collector) (emitted collector)
  = map (fun v =>
           gauge (nextValidatorStakeDesc collector)
             (stake_value (nearapi.NextValidator.Stake v)) [])
      (own_next account r)
  /\ sent_for (currentProposalsDesc collector) (emitted collector)
     = map (fun v =>
              gauge (currentProposalsDesc collector)
                (stake_value (nearapi.CurrentProposal.Stake v)) [])
         (own_proposals account r).
Proof.
  intros Hs Hv. unfold own_next, own_proposals. split.
  - rewrite (sent_for_step2 _ sr r Hs Hv) by reflexivity.
    rewrite sent_for_validators_metrics.
    rewrite sent_for_current_none by reflexivity.
    rewrite (sent_for_loop (nextValidatorStakeDesc collector)
               (next_validator_metrics collector)
               (fun v =>
                  String.eqb (nearapi.NextValidator.AccountId v) account)
               (fun v =>
                  gauge (nextValidatorStakeDesc collector)
                    (stake_value (nearapi.NextValidator.Stake v)) []))
      by (intros v; unfold next_validator_metrics;
          change (accountId collector) with account;
          destruct (String.eqb _ _); reflexivity).
    rewrite sent_for_proposal_none by reflexivity.
    rewrite sent_for_kickout_none by reflexivity.
    rewrite !sent_for_other by reflexivity.
    cbn [app]. now rewrite app_nil_r.
  - rewrite (sent_for_step2 _ sr r Hs Hv) by reflexivity.
    rewrite sent_for_validators_metrics.
    rewrite sent_for_current_none by reflexivity.
    rewrite sent_for_next_none by reflexivity.
    rewrite (sent_for_loop (currentProposalsDesc collector)
               (current_proposal_metrics collector)
               (fun v =>
                  String.eqb (nearapi.CurrentProposal.AccountId v) account)
               (fun v =>
                  gauge (currentProposalsDesc collector)
                    (stake_value (nearapi.CurrentProposal.Stake v)) []))
      by (intros v; unfold current_proposal_metrics;
          change (accountId collector) with account;
          destruct (String.eqb _ _); reflexivity).
    rewrite sent_for_kickout_none by reflexivity.
    rewrite !sent_for_other by reflexivity.
    cbn [app]. now rewrite app_nil_r.
Qed.

(** X6.  When the first two queries succeed, the scrape sends one kick-out
    sample for every previous-epoch kick-out whose account is the
    collector's, in list order; its value is always 0 and its one label is
    the rendering of the entry's reason. *)
Theorem X6_kickout_samples (sr r : nearapi.Response Reason) :
  status_answer collector = inl sr ->
  validators_answer collector = inl r ->
  sent_for (prevEpochKickoutDesc collector) (emitted collector)
  = map (fun v =>
           gauge (prevEpochKickoutDesc collector) Float64.zero
             [Sprintf_v (nearapi.PrevEpochKickOut.Reason_ v)])
      (own_kickouts account r)
  /\ values_of (prevEpochKickoutDesc collector) (emitted collector)
     = map (fun _ => Float64.zero) (own_kickouts account r).
Proof.
  intros Hs Hv.
  assert (E : sent_for (prevEpochKickoutDesc collector) (emitted collector)
              = map (fun v =>
                       gauge (prevEpochKickoutDesc collector) Float64.zero
                         [Sprintf_v (nearapi.PrevEpochKickOut.Reason_ v)])
                  (own_kickouts account r)).
  { unfold own_kickouts.
    rewrite (sent_for_step2 _ sr r Hs Hv) by reflexivity.
    rewrite sent_for_validators_metrics.
    rewrite sent_for_current_none by reflexivity.
    rewrite sent_for_next_none by reflexivity.
    rewrite sent_for_proposal_none by reflexivity.
    rewrite (sent_for_loop (prevEpochKickoutDesc collector)
               (kickout_metrics collector)
               (fun v =>
                  String.eqb (nearapi.PrevEpochKickOut.AccountId v) account)
               (fun v =>
                  gauge (prevEpochKickoutDesc collector) Float64.zero
                    [Sprintf_v (nearapi.PrevEpochKickOut.Reason_ v)]))
      by (intros v; unfold kickout_metrics;
          change (accountId collector) with account;
          destruct (String.eqb _ _); reflexivity).
    now rewrite !sent_for_other by reflexivity. }
  split; [ exact E | ].
  unfold values_of, samples_of. rewrite E. clear E.
  induction (own_kickouts account r) as [|v l IH]; [ reflexivity | ].
  cbn [map filter is_invalid negb gauge sample_values flat_map app].
  f_equal. exact IH.
Qed.

End OwnEntries.

(** * The integers sent as samples *)






Section Heights.

Context {Reason : Type} {lib : GoLib Reason}.
Variable node : nearapi.Client Reason.
Variable account : string.

Local Abbreviation collector := (NewNodeRpcMetrics node account).


End Heights.

(** * The seat price, case by case *)

Lemma seat_step_cases (seatPrice stake : float64) :
  seat_step seatPrice stake = stake
  \/ (seat_step seatPrice stake = seatPrice
      /\ Float64.is_zero seatPrice = false
      /\ Float64.ltb stake seatPrice = false).
Proof.
  destruct (Float64.is_zero seatPrice) eqn:Hz.
  - left. now apply seat_step_zero.
  - rewrite (seat_step_nonzero _ _ Hz).
    destruct (Float64.ltb stake seatPrice) eqn:Hlt; auto.
Qed.

(** The loop leaves one of the stakes it met, or the value it started from
    when that value is not a zero or there was no stake. *)
Lemma seat_fold_in (l : list float64) (seatPrice : float64) :
  In (fold_left seat_step l seatPrice) l
  \/ (fold_left seat_step l seatPrice = seatPrice
      /\ (l = [] \/ Float64.is_zero seatPrice = false)).
Proof.
  revert seatPrice. induction l as [|x l IH]; intros sp.
  - right. auto.
  - cbn [fold_left]. destruct (IH (seat_step sp x)) as [H|[H Hc]].
    + left. now right.
    + rewrite H.
      destruct (seat_step_cases sp x) as [E|(E & Hz & _)]; rewrite E.
      * left. now left.
      * right. auto.
Qed.

(** After a stake the running value is never above it. *)
Lemma seat_fold_last (l : list float64) (x seatPrice : float64) :
  Float64.gtb (fold_left seat_step (l ++ [x]) seatPrice) x = false.
Proof.
  rewrite fold_left_app. cbn [fold_left]. unfold Float64.gtb.
  fold (Float64.ltb x (seat_step (fold_left seat_step l seatPrice) x)).
  destruct (seat_step_cases (fold_left seat_step l seatPrice) x)
    as [E|(E & _ & Hlt)]; rewrite E.
  - apply SFltb_irrefl.
  - exact Hlt.
Qed.

(** From a zero, over stakes none of which is zero, the loop leaves a least
    stake. *)
Lemma seat_fold_from_zero (l : list float64) (seatPrice : float64) :
  Float64.is_zero seatPrice = true ->
  l <> [] ->
  Forall (fun x => Float64.is_zero x = false) l ->
  is_minimum_of (fold_left seat_step l seatPrice) l.
Proof.
  destruct l as [|x l]; [ congruence | ]. intros Hz _ Hl.
  inversion Hl as [|? ? Hx Hl']; subst. cbn [fold_left].
  rewrite (seat_step_zero _ _ Hz).
  apply (seat_fold_minimum l [x] x Hx); [ | exact Hl' ].
  split; [ now left | ]. intros y [<-|[]]. apply SFltb_irrefl.
Qed.

(** A zero of either sign compares like 0. *)
Lemma ltb_zero_left (z x : float64) :
  Float64.is_zero z = true -> Float64.ltb z x = Float64.ltb Float64.zero x.
Proof.
  destruct z as [s|s| |s m e]; try discriminate. intros _.
  destruct x as [s'|s'| |s' m' e']; reflexivity.
Qed.

(** Over stakes at or above zero, a zero stake brings the running value back
    to that zero. *)
Lemma seat_fold_reset (pre : list float64) (z : float64) :
  Forall (fun x => not_below_zero x = true) pre ->
  Float64.is_zero z = true ->
  fold_left seat_step (pre ++ [z]) Float64.zero = z.
Proof.
  intros Hpre Hz. rewrite fold_left_app. cbn [fold_left].
  set (sp := fold_left seat_step pre Float64.zero).
  assert (Hsp : not_below_zero sp = true).
  { destruct (seat_fold_in pre Float64.zero) as [H|[H _]]; fold sp in H.
    - rewrite Forall_forall in Hpre. now apply Hpre.
    - rewrite H. reflexivity. }
  destruct (Float64.is_zero sp) eqn:Hzs.
  - now apply seat_step_zero.
  - rewrite (seat_step_nonzero _ _ Hzs).
    unfold not_below_zero in Hsp. rewrite Hzs in Hsp. cbn [orb] in Hsp.
    now rewrite (ltb_zero_left z sp Hz), Hsp.
Qed.

Section SeatPrice.

Context {Reason : Type} {lib : GoLib Reason}.
Variable node : nearapi.Client Reason.
Variable account : string.

Local Abbreviation collector := (NewNodeRpcMetrics node account).

Lemma values_of_seatPrice (sr r : nearapi.Response Reason) :
  status_answer collector = inl sr ->
  validators_answer collector = inl r ->
  values_of (seatPriceDesc collector) (emitted collector) = [seat_price r].
Proof.
  intros Hs Hv. unfold values_of, samples_of.
  now rewrite (sent_for_seatPrice node account sr r Hs Hv).
Qed.

(** X8.  When the first two queries succeed, there is a current validator
    and no normalized stake is a zero, the seat price sent is a least
    normalized stake: it is the stake of a current validator and no current
    validator has a stake below it. *)
Theorem X8_seat_price_is_minimum (sr r : nearapi.Response Reason) :
  status_answer collector = inl sr ->
  validators_answer collector = inl r ->
  current_stakes r <> [] ->
  Forall (fun x => Float64.is_zero x = false) (current_stakes r) ->
  values_of (seatPriceDesc collector) (emitted collector) = [seat_price r]
  /\ is_minimum_of (seat_price r) (current_stakes r).
Proof.
  intros Hs Hv Hne Hnz. split.
  - now apply (values_of_seatPrice sr r).
  - now apply seat_price_minimum.
Qed.

(** X9.  When the first two queries succeed and there is a current
    validator, the seat price sent is always the normalized stake of one of
    the current validators, and it is never above the stake of the last
    one, whatever the stakes are. *)
Theorem X9_seat_price_is_a_stake (sr r : nearapi.Response Reason) :
  status_answer collector = inl sr ->
  validators_answer collector = inl r ->
  current_stakes r <> [] ->
  values_of (seatPriceDesc collector) (emitted collector) = [seat_price r]
  /\ In (seat_price r) (current_stakes r)
  /\ Float64.gtb (seat_price r) (last (current_stakes r) Float64.zero)
     = false.
Proof.
  intros Hs Hv Hne. split; [ now apply (values_of_seatPrice sr r) | ].
  unfold seat_price. split.
  - destruct (seat_fold_in (current_stakes r) Float64.zero)
      as [H|[_ [H|H]]]; [ exact H | contradiction | discriminate ].
  - destruct (exists_last Hne) as (l & x & E). rewrite E.
    rewrite last_last. apply seat_fold_last.
Qed.

(** X10.  The zero test that seeds the loop also re-seeds it.  When the
    normalized stakes are at or above zero up to a stake that is a zero, and
    no stake after it is a zero, the seat price sent is that zero if it is
    the last stake, and otherwise a least stake among those after it: the
    stakes before the last zero do not count. *)
Theorem X10_seat_price_after_zero (sr r : nearapi.Response Reason)
    (pre suf : list float64) (z : float64) :
  status_answer collector = inl sr ->
  validators_answer collector = inl r ->
  current_stakes r = pre ++ z :: suf ->
  Forall (fun x => not_below_zero x = true) pre ->
  Float64.is_zero z = true ->
  Forall (fun x => Float64.is_zero x = false) suf ->
  values_of (seatPriceDesc collector) (emitted collector) = [seat_price r]
  /\ (suf = [] -> seat_price r = z)
  /\ (suf <> [] -> is_minimum_of (seat_price r) suf).
Proof.
  intros Hs Hv E Hpre Hz Hsuf.
  split; [ now apply (values_of_seatPrice sr r) | ].
  assert (F : seat_price r = fold_left seat_step suf z).
  { unfold seat_price. rewrite E.
    replace (pre ++ z :: suf) with ((pre ++ [z]) ++ suf)
      by now rewrite <- app_assoc.
    rewrite fold_left_app. now rewrite (seat_fold_reset pre z Hpre Hz). }
  split.
  - intros ->. now rewrite F.
  - intros Hne. rewrite F. now apply seat_fold_from_zero.
Qed.

End SeatPrice.

(** * [GetStakeFromString], byte by byte *)

Lemma length_append (p t : string) :
  String.length (p ++ t)%string = (String.length p + String.length t)%nat.
Proof.
  induction p as [|c p IH]; cbn; [ reflexivity | now rewrite IH ].
Qed.

Lemma substring_append (p t : string) :
  substring 0 (String.length p) (p ++ t)%string = p.
Proof.
  induction p as [|c p IH]; cbn.
  - now destruct t.
  - now rewrite IH.
Qed.

Section Bytes.

Context {Reason : Type} {lib : GoLib Reason}.

(** The prefix handed to [ParseFloat] when 19 bytes follow it. *)
Lemma slice_prefix (p t : string) :
  len t = 19%nat ->
  slice (p ++ t) 0 (len (p ++ t) - 19) = p.
Proof.
  intros Ht. unfold slice, len in *. rewrite length_append, Ht.
  replace (String.length p + 19 - 19 - 0)%nat with (String.length p) by lia.
  apply substring_append.
Qed.

(** X11.  The last 19 bytes of the string never reach the parser and are
    not looked at, digits or not: for a non-empty [p] followed by any 19
    bytes, [GetStakeFromString] returns [ParseFloat(p) / 100000] when [p]
    parses, and prints the error and returns 0 when it does not.  The
    amount is cut, not rounded. *)
Theorem X11_last_19_bytes_ignored (p t : string) :
  len t = 19%nat ->
  p <> "" ->
  forall w,
    GetStakeFromString (p ++ t) w
    = match ParseFloat p 64 with
      | (v, None) => (Done (Float64.div v (Float64.of_Z 100000)), w)
      | (_, Some e) =>
          (Done Float64.zero,
           {| ch := ch w; rpc := rpc w; stdout := stdout w ++ [Error e] |})
      end.
Proof.
  intros Ht Hp w. unfold GetStakeFromString.
  assert (Hlen : (len (p ++ t) <=? 19)%nat = false).
  { apply Nat.leb_gt. unfold len in *. rewrite length_append, Ht.
    destruct p; [ congruence | cbn; lia ]. }
  rewrite Hlen, (slice_prefix p t Ht).
  destruct (ParseFloat p 64) as [v [e|]].
  - reflexivity.
  - now rewrite math_Pow_10_5.
Qed.


End Bytes.

(** * The contract-call result as text *)

Lemma append_nil_right (s : string) : (s ++ "")%string = s.
Proof.
  induction s as [|c s IH]; cbn; [ reflexivity | now rewrite IH ].
Qed.

Lemma append_associative (a b c : string) :
  ((a ++ b) ++ c)%string = (a ++ (b ++ c))%string.
Proof.
  induction a as [|x a IH]; cbn; [ reflexivity | now rewrite IH ].
Qed.

Lemma fold_resultString (ns : list Z) (acc : string) :
  fold_left (fun a n => (a ++ string_of_rune n)%string) ns acc
  = (acc ++ resultString ns)%string.
Proof.
  unfold resultString. revert acc.
  induction ns as [|n ns IH]; intros acc; cbn [fold_left].
  - now rewrite append_nil_right.
  - rewrite IH. cbn [append]. rewrite (IH (string_of_rune n)).
    apply append_associative.
Qed.

Lemma string_of_rune_ascii (c : ascii) :
  Z.of_N (N_of_ascii c) < 128 ->
  string_of_rune (Z.of_N (N_of_ascii c)) = String c "".
Proof.
  intros H. unfold string_of_rune.
  assert (H0 : 0 <= Z.of_N (N_of_ascii c)) by lia.
  destruct (Z.ltb_spec (Z.of_N (N_of_ascii c)) 0); [ lia | ].
  destruct (Z.ltb_spec 1114111 (Z.of_N (N_of_ascii c))); [ lia | ].
  destruct (Z.leb_spec 55296 (Z.of_N (N_of_ascii c))); [ lia | ].
  cbn [orb andb].
  destruct (Z.ltb_spec (Z.of_N (N_of_ascii c)) 128); [ | lia ].
  unfold byte_char. now rewrite N2Z.id, ascii_N_embedding.
Qed.

(** X13.  The loop that turns the contract-call result into a string gives
    back an ASCII text from its character codes.  It does not give back a
    byte from 128 to 255: such a value becomes the two bytes of its UTF-8
    encoding. *)
Theorem X13_resultString_round_trip :
  (forall s, ascii_only s -> resultString (bytes s) = s)
  /\ (forall n,
        128 <= n < 256 ->
        bytes (resultString [n]) = [ 192 + n / 64; 128 + n mod 64 ]).
Proof.
  split.
  - intros s. unfold ascii_only.
    induction s as [|c s IH]; intros H; [ reflexivity | ].
    cbn [bytes] in H. inversion H as [|? ? Hc Hs]; subst.
    cbn [bytes]. unfold resultString at 1. cbn [fold_left].
    rewrite fold_resultString, (IH Hs).
    now rewrite (string_of_rune_ascii c Hc).
  - intros n Hn. unfold resultString. cbn [fold_left].
    unfold string_of_rune.
    destruct (Z.ltb_spec n 0); [ lia | ].
    destruct (Z.ltb_spec 1114111 n); [ lia | ].
    destruct (Z.leb_spec 55296 n); [ lia | ].
    cbn [orb andb].
    destruct (Z.ltb_spec n 128); [ lia | ].
    destruct (Z.ltb_spec n 2048); [ | lia ].
    change 63 with (Z.ones 6). rewrite Z.land_ones by lia.
    rewrite Z.shiftr_div_pow2 by lia.
    change (2 ^ 6) with 64.
    assert (0 <= n / 64 < 4) by (split; [ apply Z.div_pos; lia
                                        | apply Z.div_lt_upper_bound; lia ]).
    assert (0 <= n mod 64 < 64) by (apply Z.mod_pos_bound; lia).
    cbn [append bytes]. unfold byte_char.
    rewrite !N_ascii_embedding by lia.
    rewrite !Z2N.id by lia. reflexivity.
Qed.

(** * What a scrape prints *)

Lemma prints_eq {A : Type} (c : M A) (lines lines' : list string) :
  prints c lines -> lines = lines' -> prints c lines'.
Proof. now intros H <-. Qed.

Lemma prints_ret {A : Type} (a : A) : prints (ret a) [].
Proof. intros w. cbn. now rewrite app_nil_r. Qed.

Lemma prints_send (m : Metric) : prints (send m) [].
Proof. intros w. cbn. now rewrite app_nil_r. Qed.

Lemma prints_Println (line : string) : prints (Println line) [line].
Proof. intros w. reflexivity. Qed.

Lemma prints_Get {Reason : Type} (client : nearapi.Client Reason)
    method params :
  prints (Get client method params) [].
Proof. intros w. cbn. now rewrite app_nil_r. Qed.

Lemma prints_gauge (d : Desc) (v : float64) (labelValues : list string) :
  List.length labelValues = List.length (variableLabels d) ->
  prints (MustNewConstMetric d GaugeValue v labelValues) [].
Proof.
  intros H w. unfold MustNewConstMetric, NewConstMetric.
  rewrite H, Nat.eqb_refl. cbn. now rewrite app_nil_r.
Qed.

(** Sequencing: the head runs to a value, and the rest prints from there. *)
Lemma prints_bind {A B : Type} (c : M A) (k : A -> M B) a ms reqs l1 l2 :
  runs c a ms reqs ->
  prints c l1 ->
  prints (k a) l2 ->
  prints (bind c k) (l1 ++ l2).
Proof.
  intros Hr Hp Hk w. destruct (Hr w) as [ls E].
  specialize (Hp w). rewrite E in Hp. cbn [snd] in Hp.
  unfold bind. rewrite E, (Hk (emit w ms reqs ls)), Hp.
  now rewrite app_assoc.
Qed.

Lemma prints_range {A : Type} (body : A -> M unit) (f : A -> list Metric)
    (g : A -> list string) (l : list A) :
  (forall v, runs (body v) tt (f v) []) ->
  (forall v, prints (body v) (g v)) ->
  prints (range l body) (flat_map g l).
Proof.
  intros Hr Hp. induction l as [|v l IH]; cbn [range flat_map].
  - apply prints_ret.
  - exact (prints_bind _ _ _ _ _ _ _ (Hr v) (Hp v) IH).
Qed.

Lemma prints_range_with {A S V : Type} (body : S -> A -> M S)
    (step : S -> V -> S) (h : A -> V) (f : A -> list Metric)
    (g : A -> list string) (l : list A) :
  (forall s v, runs (body s v) (step s (h v)) (f v) []) ->
  (forall s v, prints (body s v) (g v)) ->
  forall s, prints (range_with l s body) (flat_map g l).
Proof.
  intros Hr Hp. induction l as [|v l IH]; intros s;
    cbn [range_with flat_map].
  - apply prints_ret.
  - exact (prints_bind _ _ _ _ _ _ _ (Hr s v) (Hp s v) (IH _)).
Qed.

Lemma flat_map_filter {A B : Type} (own : A -> bool) (g : A -> list B)
    (l : list A) :
  flat_map (fun v => if own v then g v else []) l = flat_map g (filter own l).
Proof.
  induction l as [|v l IH]; cbn; [ reflexivity | ].
  rewrite IH. now destruct (own v).
Qed.

(** A step that sends or builds a metric prints nothing. *)
Ltac quiet_step :=
  first
    [ apply prints_ret
    | apply prints_send
    | apply prints_gauge; reflexivity
    | eapply (prints_bind _ _ _ _ _ []);
      [ first [ apply runs_send | apply runs_gauge; reflexivity ]
      | first [ apply prints_send | apply prints_gauge; reflexivity ]
      | cbv beta ] ].

Section Printed.

Context {Reason : Type} {lib : GoLib Reason}.
Variable node : nearapi.Client Reason.
Variable account : string.

Local Abbreviation collector := (NewNodeRpcMetrics node account).

Lemma prints_GetStakeFromString (s : string) :
  prints (GetStakeFromString s) (stake_log s).
Proof.
  intros w. unfold stake_log, GetStakeFromString.
  destruct (len s <=? 19)%nat.
  - cbn. now rewrite app_nil_r.
  - destruct (ParseFloat (slice s 0 (len s - 19)) 64) as [v [e|]].
    + reflexivity.
    + cbn. now rewrite app_nil_r.
Qed.

Lemma prints_collect_status (sr : nearapi.Response Reason) :
  prints (collect_status collector sr) [].
Proof.
  unfold collect_status. cbv zeta.
  eapply prints_eq; [ repeat quiet_step | reflexivity ].
Qed.

Lemma prints_validators_failed (err : error) :
  prints (validators_failed collector err) [].
Proof.
  unfold validators_failed.
  eapply prints_eq; [ repeat quiet_step | reflexivity ].
Qed.

Lemma prints_current_validator_body (seatPrice : float64)
    (v : nearapi.CurrentValidator.t) :
  prints (current_validator_body collector seatPrice v)
    (stake_log (nearapi.CurrentValidator.Stake v)).
Proof.
  unfold current_validator_body.
  destruct (String.eqb _ _);
    (eapply prints_eq;
     [ eapply prints_bind;
       [ apply runs_GetStakeFromString
       | apply prints_GetStakeFromString
       | cbv beta; cbv zeta;
         eapply (prints_bind _ _ tt _ _ []);
         [ eapply runs_eq; [ repeat run_step | reflexivity | reflexivity ]
         | eapply prints_eq; [ repeat quiet_step | reflexivity ]
         | apply prints_ret ] ]
     | now rewrite app_nil_r ]).
Qed.

Lemma prints_next_validator_body (v : nearapi.NextValidator.t) :
  prints (next_validator_body collector v)
    (if String.eqb (nearapi.NextValidator.AccountId v) account
     then stake_log (nearapi.NextValidator.Stake v) else []).
Proof.
  unfold next_validator_body. change (accountId collector) with account.
  destruct (String.eqb _ _); [ | apply prints_ret ].
  eapply prints_eq;
    [ eapply prints_bind;
      [ apply runs_GetStakeFromString
      | apply prints_GetStakeFromString
      | cbv beta; repeat quiet_step ]
    | now rewrite app_nil_r ].
Qed.

Lemma prints_current_proposal_body (v : nearapi.CurrentProposal.t) :
  prints (current_proposal_body collector v)
    (if String.eqb (nearapi.CurrentProposal.AccountId v) account
     then stake_log (nearapi.CurrentProposal.Stake v) else []).
Proof.
  unfold current_proposal_body. change (accountId collector) with account.
  destruct (String.eqb _ _); [ | apply prints_ret ].
  eapply prints_eq;
    [ eapply prints_bind;
      [ apply runs_GetStakeFromString
      | apply prints_GetStakeFromString
      | cbv beta; repeat quiet_step ]
    | now rewrite app_nil_r ].
Qed.

Lemma prints_kickout_body (v : nearapi.PrevEpochKickOut.t Reason) :
  prints (kickout_body collector v) [].
Proof.
  unfold kickout_body.
  destruct (String.eqb _ _); [ | apply prints_ret ].
  eapply prints_eq; [ repeat quiet_step | reflexivity ].
Qed.

Lemma prints_delegator_body (delegator : DelegatorAccount) :
  prints (delegator_body collector delegator)
    (stake_log (StakedBalance delegator)).
Proof.
  unfold delegator_body.
  eapply prints_eq;
    [ eapply prints_bind;
      [ apply runs_GetStakeFromString
      | apply prints_GetStakeFromString
      | cbv beta; repeat quiet_step ]
    | now rewrite app_nil_r ].
Qed.

End Printed.

Section PrintedWhole.

Context {Reason : Type} {lib : GoLib Reason}.
Variable node : nearapi.Client Reason.
Variable account : string.

Local Abbreviation collector := (NewNodeRpcMetrics node account).

(** The lines of step 2: one stake after the other. *)
Lemma prints_collect_validators (r : nearapi.Response Reason) :
  prints (collect_validators collector r)
    (flat_map (fun v => stake_log (nearapi.CurrentValidator.Stake v))
       (nearapi.Validators.CurrentValidators (nearapi.Validators r))
     ++ flat_map (fun v => stake_log (nearapi.NextValidator.Stake v))
          (own_next account r)
     ++ flat_map (fun v => stake_log (nearapi.CurrentProposal.Stake v))
          (own_proposals account r)).
Proof.
  unfold collect_validators, own_next, own_proposals. cbv zeta.
  rewrite <- !flat_map_filter.
  eapply prints_eq.
  - eapply (prints_bind _ _ _ _ _ []);
      [ apply runs_gauge; reflexivity | apply prints_gauge; reflexivity
      | cbv beta ].
    eapply (prints_bind _ _ _ _ _ []);
      [ apply runs_send | apply prints_send | cbv beta ].
    eapply prints_bind;
      [ apply (runs_range_with (current_validator_body collector) seat_step
                 (fun v => stake_value (nearapi.CurrentValidator.Stake v))
                 (current_validator_metrics collector));
        intros; apply runs_current_validator_body
      | apply (prints_range_with (current_validator_body collector) seat_step
                 (fun v => stake_value (nearapi.CurrentValidator.Stake v))
                 (current_validator_metrics collector)
                 (fun v => stake_log (nearapi.CurrentValidator.Stake v)));
        intros;
        [ apply runs_current_validator_body
        | apply prints_current_validator_body ]
      | cbv beta ].
    eapply (prints_bind _ _ _ _ _ []);
      [ apply runs_gauge; reflexivity | apply prints_gauge; reflexivity
      | cbv beta ].
    eapply (prints_bind _ _ _ _ _ []);
      [ apply runs_send | apply prints_send | cbv beta ].
    eapply prints_bind;
      [ apply runs_range; intros; apply runs_next_validator_body
      | apply (prints_range _ (next_validator_metrics collector));
        intros;
        [ apply runs_next_validator_body
        | apply prints_next_validator_body ]
      | cbv beta ].
    eapply prints_bind;
      [ apply runs_range; intros; apply runs_current_proposal_body
      | apply (prints_range _ (current_proposal_metrics collector));
        intros;
        [ apply runs_current_proposal_body
        | apply prints_current_proposal_body ]
      | cbv beta ].
    apply (prints_range _ (kickout_metrics collector)
             (fun _ => @nil string)); intros;
      [ apply runs_kickout_body | apply prints_kickout_body ].
  - cbn [app].
    assert (K : forall l : list (nearapi.PrevEpochKickOut.t Reason),
                flat_map (fun _ => @nil string) l = [])
      by (intros l; induction l; auto).
    now rewrite K, app_nil_r.
Qed.

(** The lines of step 3. *)
Lemma prints_collect_delegators :
  prints (collect_delegators collector)
    (match query_answer collector with
     | inr _ => []
     | inl d =>
         flat_map (fun a => stake_log (StakedBalance a))
           (decoded_delegators d)
     end).
Proof.
  assert (forall a : nearapi.Response Reason + error,
            prints
              (match a with
               | inr err =>
                   send (NewInvalidMetric (delegatorStakeDesc collector) err)
               | inl d =>
                   let (res, _) :=
                     Unmarshal
                       (resultString
                          (nearapi.Result.Result (nearapi.Result d))) [] in
                   range res (delegator_body collector)
               end)
              (match a with
               | inr _ => []
               | inl d =>
                   flat_map (fun a => stake_log (StakedBalance a))
                     (decoded_delegators d)
               end)) as Hrest.
  { intros [d|err]; [ | apply prints_send ].
    unfold decoded_delegators.
    destruct (Unmarshal _ _) as [res e]. cbn [fst].
    apply (prints_range _ (fun v => [delegator_metric collector v])); intros.
    - apply runs_delegator_body.
    - apply prints_delegator_body. }
  unfold collect_delegators.
  eapply prints_eq;
    [ eapply (prints_bind _ _ _ _ _ []);
      [ apply runs_Get | apply prints_Get | apply Hrest ]
    | reflexivity ].
Qed.

(** X14.  A scrape prints the parse errors of the stakes it normalizes and
    nothing else, in the order it meets them: the stake of every current
    validator, whoever it belongs to, then the stakes of the next validators
    and of the proposals that carry the collector's account, then the staked
    balance of every decoded delegator.  It prints nothing when the status
    or the validator-set query fails. *)
Theorem X14_printed_lines :
  stdout (snd (scrape collector))
  = match status_answer collector with
    | inr _ => []
    | inl _ =>
        match validators_answer collector with
        | inr _ => []
        | inl r =>
            (flat_map (fun v => stake_log (nearapi.CurrentValidator.Stake v))
               (nearapi.Validators.CurrentValidators (nearapi.Validators r))
             ++ flat_map (fun v => stake_log (nearapi.NextValidator.Stake v))
                  (own_next account r)
             ++ flat_map
                  (fun v => stake_log (nearapi.CurrentProposal.Stake v))
                  (own_proposals account r))
            ++ match query_answer collector with
               | inr _ => []
               | inl d =>
                   flat_map (fun a => stake_log (StakedBalance a))
                     (decoded_delegators d)
               end
        end
    end.
Proof.
  assert (P : prints (Collect collector)
                (match status_answer collector with
                 | inr _ => []
                 | inl _ =>
                     match validators_answer collector with
                     | inr _ => []
                     | inl r =>
                         (flat_map
                            (fun v =>
                               stake_log (nearapi.CurrentValidator.Stake v))
                            (nearapi.Validators.CurrentValidators
                               (nearapi.Validators r))
                          ++ flat_map
                               (fun v =>
                                  stake_log (nearapi.NextValidator.Stake v))
                               (own_next account r)
                          ++ flat_map
                               (fun v =>
                                  stake_log (nearapi.CurrentProposal.Stake v))
                               (own_proposals account r))
                         ++ match query_answer collector with
                            | inr _ => []
                            | inl d =>
                                flat_map
                                  (fun a => stake_log (StakedBalance a))
                                  (decoded_delegators d)
                            end
                     end
                 end)).
  { unfold Collect, status_answer, validators_answer.
    destruct (nearapi.answer (client collector) "status" nearapi.PNil)
      as [sr|err] eqn:Es;
      [ destruct (nearapi.answer (client collector) "validators"
                    (nearapi.PString "latest")) as [r|err] eqn:Ev | ].
    - eapply prints_eq.
      + eapply prints_bind; [ apply runs_Get | apply prints_Get | cbv beta ].
        rewrite Es.
        eapply prints_bind;
          [ apply runs_collect_status | apply prints_collect_status
          | cbv beta ].
        eapply prints_bind; [ apply runs_Get | apply prints_Get | cbv beta ].
        rewrite Ev.
        eapply prints_bind;
          [ apply runs_collect_validators | apply prints_collect_validators
          | cbv beta ].
        apply prints_collect_delegators.
      + reflexivity.
    - eapply prints_eq.
      + eapply prints_bind; [ apply runs_Get | apply prints_Get | cbv beta ].
        rewrite Es.
        eapply prints_bind;
          [ apply runs_collect_status | apply prints_collect_status
          | cbv beta ].
        eapply prints_bind; [ apply runs_Get | apply prints_Get | cbv beta ].
        rewrite Ev.
        apply prints_validators_failed.
      + reflexivity.
    - eapply prints_eq.
      + eapply prints_bind; [ apply runs_Get | apply prints_Get | cbv beta ].
        rewrite Es. apply prints_send.
      + reflexivity. }
  unfold scrape. now rewrite (P empty_world).
Qed.

End PrintedWhole.

(** * What a scrape asks the node *)

Section Requests.

Context {Reason : Type} {lib : GoLib Reason}.
Variable node : nearapi.Client Reason.
Variable account : string.

Local Abbreviation collector := (NewNodeRpcMetrics node account).

(** X15.  A scrape asks the node at most three times and never the same
    thing twice.  The status comes first; the validators are asked for
    exactly when the status query succeeded, and the delegators exactly when
    the validator-set query succeeded too.  The contract call is
    [get_accounts] on the collector's own account. *)
Theorem X15_requests_in_order :
  NoDup (requested collector)
  /\ hd_error (requested collector) = Some status_request
  /\ (List.length (requested collector) <= 3)%nat
  /\ (In validators_request (requested collector)
      <-> exists sr, status_answer collector = inl sr)
  /\ (In (query_request collector) (requested collector)
      <-> (exists sr, status_answer collector = inl sr)
          /\ exists r, validators_answer collector = inl r)
  /\ exists kvs,
       query_request collector = ("query", nearapi.PMap kvs)
       /\ In ("account_id", account) kvs
       /\ In ("method_name", "get_accounts") kvs.
Proof.
  rewrite requested_eq. unfold collect_requests.
  assert (Hsv : status_request <> validators_request) by discriminate.
  assert (Hsq : status_request <> query_request collector) by discriminate.
  assert (Hvq : validators_request <> query_request collector)
    by discriminate.
  destruct (status_answer collector) as [sr|e1];
    [ destruct (validators_answer collector) as [r|e2] | ].
  - split.
    { repeat constructor; cbn; intuition congruence. }
    split; [ reflexivity | ].
    split; [ cbn; lia | ].
    split; [ split; [ eauto | cbn; auto ] | ].
    split; [ split; [ eauto | cbn; auto ] | ].
    eexists. split; [ reflexivity | ]. cbn. auto 10.
  - split.
    { repeat constructor; cbn; intuition congruence. }
    split; [ reflexivity | ].
    split; [ cbn; lia | ].
    split; [ split; [ eauto | cbn; auto ] | ].
    split.
    { split.
      - cbn. intros [H|[H|[]]]; congruence.
      - intros (_ & r & H). discriminate. }
    eexists. split; [ reflexivity | ]. cbn. auto 10.
  - split.
    { repeat constructor; cbn; intuition congruence. }
    split; [ reflexivity | ].
    split; [ cbn; lia | ].
    split.
    { split.
      - cbn. intros [H|[]]. congruence.
      - intros (sr & H). discriminate. }
    split.
    { split.
      - cbn. intros [H|[]]. congruence.
      - intros ((sr & H) & _). discriminate. }
    eexists. split; [ reflexivity | ]. cbn. auto 10.
Qed.

End Requests.

(** * How much a scrape sends *)

Lemma length_flat_map_own {A : Type} (own : A -> bool) (f : A -> list Metric)
    (n : nat) (l : list A) :
  (forall v, List.length (f v) = if own v then n else 0%nat) ->
  List.length (flat_map f l) = (n * List.length (filter own l))%nat.
Proof.
  intros H. induction l as [|v l IH]; cbn [flat_map filter].
  - cbn. lia.
  - rewrite length_app, H, IH. destruct (own v); cbn [List.length]; lia.
Qed.

Section Count.

Context {Reason : Type} {lib : GoLib Reason}.
Variable node : nearapi.Client Reason.
Variable account : string.

Local Abbreviation collector := (NewNodeRpcMetrics node account).

(** X16.  When the three queries succeed, the scrape sends five metrics
    whatever the answers hold (three from the status, the epoch start height
    and the seat price), five more for every current validator of the
    collector's account, one for every next validator, proposal and kick-out
    of that account, and one for every decoded delegator; none of them is an
    invalid marker. *)
Theorem X16_number_of_samples (sr r d : nearapi.Response Reason) :
  status_answer collector = inl sr ->
  validators_answer collector = inl r ->
  query_answer collector = inl d ->
  List.length (emitted collector)
  = (5 + 5 * List.length (own_current account r)
     + List.length (own_next account r)
     + List.length (own_proposals account r)
     + List.length (own_kickouts account r)
     + List.length (decoded_delegators d))%nat
  /\ filter is_invalid (emitted collector) = [].
Proof.
  intros Hs Hv Hq. rewrite emitted_eq. unfold collect_metrics.
  rewrite Hs, Hv, Hq. split.
  - unfold validators_metrics, delegators_metrics. cbv zeta.
    rewrite !length_app, length_map.
    rewrite (length_flat_map_own
               (fun v =>
                  String.eqb (nearapi.CurrentValidator.AccountId v) account)
               (current_validator_metrics collector) 5)
      by (intros v; unfold current_validator_metrics;
          change (accountId collector) with account;
          destruct (String.eqb _ _); reflexivity).
    rewrite (length_flat_map_own
               (fun v =>
                  String.eqb (nearapi.NextValidator.AccountId v) account)
               (next_validator_metrics collector) 1)
      by (intros v; unfold next_validator_metrics;
          change (accountId collector) with account;
          destruct (String.eqb _ _); reflexivity).
    rewrite (length_flat_map_own
               (fun v =>
                  String.eqb (nearapi.CurrentProposal.AccountId v) account)
               (current_proposal_metrics collector) 1)
      by (intros v; unfold current_proposal_metrics;
          change (accountId collector) with account;
          destruct (String.eqb _ _); reflexivity).
    rewrite (length_flat_map_own
               (fun v =>
                  String.eqb (nearapi.PrevEpochKickOut.AccountId v) account)
               (kickout_metrics collector) 1)
      by (intros v; unfold kickout_metrics;
          change (accountId collector) with account;
          destruct (String.eqb _ _); reflexivity).
    unfold own_current, own_next, own_proposals, own_kickouts.
    cbn [List.length status_metrics]. lia.
  - apply filter_none. intros m Hm.
    rewrite !in_app_iff in Hm. destruct Hm as [Hm|[Hm|Hm]].
    + now destruct (in_status_metrics node account sr m Hm).
    + now destruct (in_validators_metrics node account r m Hm).
    + now destruct (in_delegators_metrics node account d m Hm).
Qed.

End Count.

(** * The further theorems at the example nodes *)

Lemma X3_status_samples_witness :
  status_answer Examples.validators_down = inl Examples.status_response
  /\ sent_for (syncingDesc Examples.validators_down)
       (emitted Examples.validators_down)
     = [ gauge (syncingDesc Examples.validators_down) (S754_zero false) [];
         invalidMetric (syncingDesc Examples.validators_down)
           Examples.unreachable ].
Proof.
  split; [ reflexivity | ].
  exact (proj1 (X3_status_samples (lib := golib)
                  (Examples.node (inl Examples.status_response)
                     (inr Examples.unreachable)
                     (inl Examples.one_delegator))
                  "a.near" Examples.status_response eq_refl)).
Defined.

Lemma X4_current_validator_samples_witness :
  status_answer Examples.all_up = inl Examples.status_response
  /\ validators_answer Examples.all_up = inl Examples.two_validators
  /\ sent_for (epochBlockProducedDesc Examples.all_up)
       (emitted Examples.all_up)
     = [ gauge (epochBlockProducedDesc Examples.all_up) (Float64.of_Z 10)
           [] ].
Proof.
  split; [ reflexivity | ].
  split; [ reflexivity | ].
  exact (proj1 (proj2 (X4_current_validator_samples (lib := golib)
                         (Examples.node (inl Examples.status_response)
                            (inl Examples.two_validators)
                            (inl Examples.one_delegator))
                         "a.near" Examples.status_response
                         Examples.two_validators eq_refl eq_refl))).
Defined.

Lemma X5_next_and_proposal_samples_witness :
  status_answer Examples.all_up = inl Examples.status_response
  /\ validators_answer Examples.all_up = inl Examples.two_validators
  /\ sent_for (nextValidatorStakeDesc Examples.all_up)
       (emitted Examples.all_up)
     = [ gauge (nextValidatorStakeDesc Examples.all_up)
           (stake_value "31000000000000000000000000") [] ]
  /\ sent_for (currentProposalsDesc Examples.all_up)
       (emitted Examples.all_up) = [].
Proof.
  split; [ reflexivity | ].
  split; [ reflexivity | ].
  exact (X5_next_and_proposal_samples (lib := golib)
           (Examples.node (inl Examples.status_response)
              (inl Examples.two_validators)
              (inl Examples.one_delegator))
           "a.near" Examples.status_response Examples.two_validators
           eq_refl eq_refl).
Defined.

Lemma X6_kickout_samples_witness :
  status_answer
    (NewNodeRpcMetrics
       (Examples.node (inl Examples.status_response)
          (inl Examples.two_validators) (inl Examples.one_delegator))
       "c.near")
  = inl Examples.status_response
  /\ validators_answer
       (NewNodeRpcMetrics
          (Examples.node (inl Examples.status_response)
             (inl Examples.two_validators) (inl Examples.one_delegator))
          "c.near")
     = inl Examples.two_validators
  /\ sent_for
       (prevEpochKickoutDesc
          (NewNodeRpcMetrics
             (Examples.node (inl Examples.status_response)
                (inl Examples.two_validators) (inl Examples.one_delegator))
             "c.near"))
       (emitted
          (NewNodeRpcMetrics
             (Examples.node (inl Examples.status_response)
                (inl Examples.two_validators) (inl Examples.one_delegator))
             "c.near"))
     = [ gauge
           (prevEpochKickoutDesc
              (NewNodeRpcMetrics
                 (Examples.node (inl Examples.status_response)
                    (inl Examples.two_validators)
                    (inl Examples.one_delegator))
                 "c.near"))
           Float64.zero ["Unstaked"] ].
Proof.
  split; [ reflexivity | ].
  split; [ reflexivity | ].
  exact (proj1 (X6_kickout_samples (lib := golib)
                  (Examples.node (inl Examples.status_response)
                     (inl Examples.two_validators)
                     (inl Examples.one_delegator))
                  "c.near" Examples.status_response Examples.two_validators
                  eq_refl eq_refl)).
Defined.


Lemma two_validators_stakes :
  current_stakes Examples.two_validators
  = [ Float64.of_Z 30; Float64.of_Z 20 ].
Proof. vm_compute. reflexivity. Defined.

Lemma X8_seat_price_is_minimum_witness :
  status_answer Examples.all_up = inl Examples.status_response
  /\ validators_answer Examples.all_up = inl Examples.two_validators
  /\ current_stakes Examples.two_validators <> []
  /\ Forall (fun x => Float64.is_zero x = false)
       (current_stakes Examples.two_validators)
  /\ is_minimum_of (seat_price Examples.two_validators)
       (current_stakes Examples.two_validators).
Proof.
  assert (Hne : current_stakes Examples.two_validators <> [])
    by (rewrite two_validators_stakes; discriminate).
  assert (Hnz : Forall (fun x => Float64.is_zero x = false)
                  (current_stakes Examples.two_validators))
    by (rewrite two_validators_stakes; repeat constructor).
  split; [ reflexivity | ].
  split; [ reflexivity | ].
  split; [ exact Hne | ].
  split; [ exact Hnz | ].
  exact (proj2 (X8_seat_price_is_minimum (lib := golib)
                  (Examples.node (inl Examples.status_response)
                     (inl Examples.two_validators)
                     (inl Examples.one_delegator))
                  "a.near" Examples.status_response Examples.two_validators
                  eq_refl eq_refl Hne Hnz)).
Defined.

Lemma X9_seat_price_is_a_stake_witness :
  status_answer Examples.zero_stake = inl Examples.status_response
  /\ validators_answer Examples.zero_stake
     = inl Examples.zero_stake_validators
  /\ current_stakes Examples.zero_stake_validators <> []
  /\ In (seat_price Examples.zero_stake_validators)
       (current_stakes Examples.zero_stake_validators).
Proof.
  assert (Hne : current_stakes Examples.zero_stake_validators <> [])
    by (vm_compute; discriminate).
  split; [ reflexivity | ].
  split; [ reflexivity | ].
  split; [ exact Hne | ].
  exact (proj1 (proj2 (X9_seat_price_is_a_stake (lib := golib)
                         (Examples.node (inl Examples.status_response)
                            (inl Examples.zero_stake_validators)
                            (inl Examples.one_delegator))
                         "a.near" Examples.status_response
                         Examples.zero_stake_validators
                         eq_refl eq_refl Hne))).
Defined.

Lemma X10_seat_price_after_zero_witness :
  status_answer Examples.zero_stake = inl Examples.status_response
  /\ validators_answer Examples.zero_stake
     = inl Examples.zero_stake_validators
  /\ current_stakes Examples.zero_stake_validators
     = [ Float64.of_Z 20 ] ++ Float64.zero :: [ Float64.of_Z 30 ]
  /\ Forall (fun x => not_below_zero x = true) [ Float64.of_Z 20 ]
  /\ Float64.is_zero Float64.zero = true
  /\ Forall (fun x => Float64.is_zero x = false) [ Float64.of_Z 30 ]
  /\ is_minimum_of (seat_price Examples.zero_stake_validators)
       [ Float64.of_Z 30 ].
Proof.
  assert (E : current_stakes Examples.zero_stake_validators
              = [ Float64.of_Z 20 ] ++ Float64.zero :: [ Float64.of_Z 30 ])
    by (vm_compute; reflexivity).
  assert (Hpre : Forall (fun x => not_below_zero x = true)
                   [ Float64.of_Z 20 ]) by (repeat constructor).
  assert (Hsuf : Forall (fun x => Float64.is_zero x = false)
                   [ Float64.of_Z 30 ]) by (repeat constructor).
  split; [ reflexivity | ].
  split; [ reflexivity | ].
  split; [ exact E | ].
  split; [ exact Hpre | ].
  split; [ reflexivity | ].
  split; [ exact Hsuf | ].
  refine (proj2 (proj2 (X10_seat_price_after_zero (lib := golib)
                          (Examples.node (inl Examples.status_response)
                             (inl Examples.zero_stake_validators)
                             (inl Examples.one_delegator))
                          "a.near" Examples.status_response
                          Examples.zero_stake_validators
                          [ Float64.of_Z 20 ] [ Float64.of_Z 30 ]
                          Float64.zero eq_refl eq_refl E Hpre eq_refl Hsuf))
            _).
  discriminate.
Defined.

Lemma X11_last_19_bytes_ignored_witness :
  len "abcdefghijklmnopqrs" = 19%nat
  /\ "5" <> ""
  /\ GetStakeFromString (lib := golib) "5abcdefghijklmnopqrs" empty_world
     = (Done (Float64.div (Float64.of_Z 5) (Float64.of_Z 100000)),
        empty_world).
Proof.
  assert (Hp : "5" <> "") by discriminate.
  split; [ reflexivity | ].
  split; [ exact Hp | ].
  exact (X11_last_19_bytes_ignored (lib := golib) "5" "abcdefghijklmnopqrs"
           eq_refl Hp empty_world).
Defined.

Lemma X13_resultString_round_trip_witness :
  ascii_only "[{}]"
  /\ resultString [91; 123; 125; 93] = "[{}]"
  /\ 128 <= 200 < 256
  /\ bytes (resultString [200]) = [195; 136].
Proof.
  assert (Ha : ascii_only "[{}]")
    by (unfold ascii_only; cbn; repeat (constructor; [ reflexivity | ]);
        constructor).
  assert (Hn : 128 <= 200 < 256) by (split; [ discriminate | reflexivity ]).
  split; [ exact Ha | ].
  split; [ exact (proj1 X13_resultString_round_trip "[{}]" Ha) | ].
  split; [ exact Hn | ].
  exact (proj2 X13_resultString_round_trip 200 Hn).
Defined.

Lemma X16_number_of_samples_witness :
  status_answer Examples.all_up = inl Examples.status_response
  /\ validators_answer Examples.all_up = inl Examples.two_validators
  /\ query_answer Examples.all_up = inl Examples.one_delegator
  /\ List.length (emitted Examples.all_up) = 12%nat.
Proof.
  split; [ reflexivity | ].
  split; [ reflexivity | ].
  split; [ reflexivity | ].
  pose proof (proj1 (X16_number_of_samples (lib := golib)
                       (Examples.node (inl Examples.status_response)
                          (inl Examples.two_validators)
                          (inl Examples.one_delegator))
                       "a.near" Examples.status_response
                       Examples.two_validators Examples.one_delegator
                       eq_refl eq_refl eq_refl)) as H.
  unfold Examples.all_up. rewrite H. vm_compute. reflexivity.
Defined.
